(** * clabot: the CLA bot of prequel-dev/clabot (cmd/clabot.go)

    A shallow embedding of the bot's signer readers, signer aggregation and
    event handlers, with the platform (GitHub API, HTTP, the file system)
    as an explicit world, and the properties of its specification.

    - Go strings are byte strings.  [strings.HasPrefix], [strings.Contains]
      and [strings.Split] work on bytes and are defined here.
      [strings.ToLower] and [strings.TrimSpace] work on Unicode text; they
      are the two operations of the class [GoStrings], known by what they
      do on ASCII text, and the program and its properties are stated for
      every such pair.  The runs at the end of the file are on ASCII text.
    - A function that returns [(T, error)] returns a [result]; a function
      that can panic returns an [outcome]; a function that calls the
      platform or touches the disk runs in the monad [Go], which reads the
      answers of the [World] and threads the [State]: the files on disk and
      the list of calls made, in order.
    - JSON documents are known by what [json.Unmarshal] decodes from them,
      so that marshalling an event and decoding it again gives the event.
      A decoded issue-comment event carries its issue, as the events of
      the platform do.
    - Not modelled: the log lines (zerolog) and the construction of the
      GitHub client. *)

From Stdlib Require Import String Ascii List ZArith Lia Bool.
From stdpp Require Import base gmap sets list strings.
Import ListNotations.

Set Warnings "-clear-no-such-hyp".
Local Open Scope string_scope.
Local Open Scope list_scope.

(** ** Go's [strings] package *)

Module Strings.

Definition isUpper (c : ascii) : bool :=
  (65 <=? nat_of_ascii c)%nat && (nat_of_ascii c <=? 90)%nat.

Definition toLower (c : ascii) : ascii :=
  if isUpper c then ascii_of_nat (nat_of_ascii c + 32) else c.

(** What [strings.ToLower] does on ASCII text. *)
Fixpoint ToLowerASCII (s : string) : string :=
  match s with
  | EmptyString => EmptyString
  | String c r => String (toLower c) (ToLowerASCII r)
  end.

(** Go's ASCII white space: tab, line feed, vertical tab, form feed,
    carriage return and space. *)
Definition isSpace (c : ascii) : bool :=
  let n := nat_of_ascii c in
  ((9 <=? n)%nat && (n <=? 13)%nat) || (n =? 32)%nat.

Fixpoint trimLeftSpace (s : string) : string :=
  match s with
  | EmptyString => EmptyString
  | String c r => if isSpace c then trimLeftSpace r else s
  end.

Definition isEmpty (s : string) : bool :=
  match s with EmptyString => true | String _ _ => false end.

Fixpoint trimRightSpace (s : string) : string :=
  match s with
  | EmptyString => EmptyString
  | String c r =>
      let r' := trimRightSpace r in
      if isSpace c && isEmpty r' then EmptyString else String c r'
  end.

(** What [strings.TrimSpace] does on ASCII text. *)
Definition TrimSpaceASCII (s : string) : string := trimRightSpace (trimLeftSpace s).

(** Text of ASCII bytes only. *)
Definition isASCIIbyte (c : ascii) : bool := (nat_of_ascii c <? 128)%nat.

Fixpoint isASCII (s : string) : bool :=
  match s with
  | EmptyString => true
  | String c r => isASCIIbyte c && isASCII r
  end.

(** [strings.HasPrefix s prefix] *)
Fixpoint HasPrefix (s p : string) : bool :=
  match p, s with
  | EmptyString, _ => true
  | String _ _, EmptyString => false
  | String a p', String b s' => if Ascii.eqb a b then HasPrefix s' p' else false
  end.

(** [strings.Index]: the position of the first occurrence of [sub]. *)
Fixpoint Index (s sub : string) : option nat :=
  if HasPrefix s sub then Some 0%nat
  else match s with
       | EmptyString => None
       | String _ r => option_map S (Index r sub)
       end.

(** [strings.Contains] *)
Definition Contains (s sub : string) : bool :=
  match Index s sub with Some _ => true | None => false end.

(** [strings.Split s sep] for a separator that is not empty: the pieces
    of [s] between the occurrences of [sep], scanned from the left.
    [skip] counts the bytes of the occurrence being stepped over. *)
Fixpoint splitFrom (sep s : string) (skip : nat) : list string :=
  match s with
  | EmptyString => [EmptyString]
  | String c r =>
      match skip with
      | S k => splitFrom sep r k
      | O =>
          if HasPrefix s sep
          then EmptyString :: splitFrom sep r (String.length sep - 1)
          else match splitFrom sep r 0 with
               | piece :: rest => String c piece :: rest
               | [] => [String c EmptyString]
               end
      end
  end.

Definition Split (s sep : string) : list string := splitFrom sep s 0.

End Strings.
Import Strings.

Definition LF : string := String (ascii_of_nat 10) EmptyString.
Definition CR : string := String (ascii_of_nat 13) EmptyString.

(** [strings.ToLower] and [strings.TrimSpace].  Go lowercases every Unicode
    letter (and rewrites invalid UTF-8), and trims Unicode white space at
    both ends; what the two do beyond ASCII is not defined here.  On text
    of ASCII bytes only they lowercase A to Z, and trim tab, line feed,
    vertical tab, form feed, carriage return and space. *)
Class GoStrings : Type := {
  ToLower : string -> string;
  TrimSpace : string -> string;
  ToLower_ASCII : forall s, isASCII s = true -> ToLower s = ToLowerASCII s;
  TrimSpace_ASCII : forall s, isASCII s = true -> TrimSpace s = TrimSpaceASCII s;
}.

(** The two operations on ASCII text, for runs on such text. *)
Definition ascii_strings : GoStrings :=
  {| ToLower := ToLowerASCII;
     TrimSpace := TrimSpaceASCII;
     ToLower_ASCII := fun _ _ => eq_refl;
     TrimSpace_ASCII := fun _ _ => eq_refl |}.

(** ** Go errors, results and panics *)

(** The kinds of [csv.ParseError] a reader with the default settings can
    report (the line and column it carries are not modelled). *)
Inductive CsvErr : Type :=
  | ErrBareQuote    (* a quote inside a field that is not quoted *)
  | ErrQuote        (* a quote that is neither doubled nor ends its field *)
  | ErrFieldCount.  (* a record with another number of fields than the first *)

(** A Go [error] value: [errors.New] and [fmt.Errorf] without a wrapped
    cause give [errors_New]; [fmt.Errorf] with the verb for a wrapped cause
    after a prefix gives [Errorf_w], whose [Unwrap] is the cause. *)
Inductive error : Type :=
  | errors_New (msg : string)
  | Errorf_w (prefix : string) (cause : error)
  | csv_ParseError (kind : CsvErr).

(** A Go result pair [(T, error)], of which exactly one side is meaningful. *)
Inductive result (A : Type) : Type :=
  | Ok (a : A)
  | Err (e : error).
Arguments Ok {A} a.
Arguments Err {A} e.

(** A run-time panic of the program: an index out of range, [index] against
    a slice of length [len], or the dereference of a nil pointer. *)
Inductive panic : Type :=
  | IndexOutOfRange (index len : nat)
  | NilDereference.

(** ** Go's [encoding/csv] reader with its default settings

    Comma as separator, no comment character, strict quotes, no trimming, and
    every record must have as many fields as the first one.  The reader
    works line by line; as a line feed only ever ends a line, reading is the
    same as one pass over the bytes after the line ends are normalised. *)

Module Csv.

Definition quote : ascii := ascii_of_nat 34.
Definition comma : ascii := ascii_of_nat 44.
Definition lf : ascii := ascii_of_nat 10.
Definition cr : ascii := ascii_of_nat 13.

(** [readLine] turns a carriage return and line feed at the end of a line
    into a line feed and drops a carriage return that ends the input. *)
Fixpoint normalizeNL (s : string) : string :=
  match s with
  | EmptyString => EmptyString
  | String c r =>
      if Ascii.eqb c cr then
        match r with
        | EmptyString => EmptyString
        | String d r' =>
            if Ascii.eqb d lf then String lf (normalizeNL r')
            else String c (normalizeNL r)
        end
      else String c (normalizeNL r)
  end.

Inductive mode : Type :=
  | RecordStart   (* at the start of a line, no record begun *)
  | FieldStart    (* inside a record, at the start of a field *)
  | Unquoted      (* inside a field that did not start with a quote *)
  | Quoted        (* inside a quoted field *)
  | QuoteSeen.    (* just after a quote inside a quoted field *)

Inductive step : Type :=
  | Continue (m : mode) (fld : string) (rec : list string)
  | EndRecord (rec : list string)
  | Fail (e : CsvErr).

Definition snoc (fld : string) (c : ascii) : string :=
  fld ++ String c EmptyString.

Definition inUnquoted (c : ascii) (fld : string) (rec : list string) : step :=
  if Ascii.eqb c comma then Continue FieldStart EmptyString (rec ++ [fld])
  else if Ascii.eqb c lf then EndRecord (rec ++ [fld])
  else if Ascii.eqb c quote then Fail ErrBareQuote
  else Continue Unquoted (snoc fld c) rec.

Definition atFieldStart (c : ascii) (fld : string) (rec : list string) : step :=
  if Ascii.eqb c quote then Continue Quoted EmptyString rec
  else inUnquoted c fld rec.

Definition next (m : mode) (c : ascii) (fld : string) (rec : list string) : step :=
  match m with
  | RecordStart =>
      if Ascii.eqb c lf then Continue RecordStart EmptyString []  (* empty line *)
      else atFieldStart c fld rec
  | FieldStart => atFieldStart c fld rec
  | Unquoted => inUnquoted c fld rec
  | Quoted =>
      if Ascii.eqb c quote then Continue QuoteSeen fld rec
      else Continue Quoted (snoc fld c) rec
  | QuoteSeen =>
      if Ascii.eqb c quote then Continue Quoted (snoc fld quote) rec
      else if Ascii.eqb c comma then Continue FieldStart EmptyString (rec ++ [fld])
      else if Ascii.eqb c lf then EndRecord (rec ++ [fld])
      else Fail ErrQuote
  end.

(** The check of [FieldsPerRecord = 0]: the first record sets the number
    of fields, every later record must have it. *)
Definition endRecord (rec : list string) (acc : list (list string))
  : result (list (list string)) :=
  match acc with
  | [] => Ok [rec]
  | first :: _ =>
      if (length rec =? length first)%nat then Ok (acc ++ [rec])
      else Err (csv_ParseError ErrFieldCount)
  end.

Fixpoint scan (s : string) (m : mode) (fld : string) (rec : list string)
    (acc : list (list string)) : result (list (list string)) :=
  match s with
  | EmptyString =>
      match m with
      | RecordStart => Ok acc
      | Quoted => Err (csv_ParseError ErrQuote)
      | FieldStart | Unquoted | QuoteSeen => endRecord (rec ++ [fld]) acc
      end
  | String c r =>
      match next m c fld rec with
      | Continue m' fld' rec' => scan r m' fld' rec' acc
      | EndRecord rec' =>
          match endRecord rec' acc with
          | Ok acc' => scan r RecordStart EmptyString [] acc'
          | Err e => Err e
          end
      | Fail e => Err (csv_ParseError e)
      end
  end.

(** [csv.NewReader(body).ReadAll()] *)
Definition ReadAll (body : string) : result (list (list string)) :=
  scan (normalizeNL body) RecordStart EmptyString [] [].

End Csv.

(** ** The platform: data, calls and the world *)

(** What the handlers read of a [github.PullRequest], through the nil-safe
    getters [GetUser().GetLogin()], [GetHead().GetSHA()],
    [GetBase().GetRef()] and [GetNumber()]. *)
Record PullRequest : Type := {
  User_Login : string;
  Head_SHA : string;
  Base_Ref : string;
  Number : Z;
}.

Record PullRequestEvent : Type := { GetPullRequest : PullRequest }.

(** What the handlers read of a [github.IssueCommentEvent]. *)
Record IssueCommentEvent : Type := {
  Comment_User_Login : string;
  Comment_Body : string;
  Issue_Number : Z;
  Issue_IsPullRequest : bool;
}.

(** A JSON document, known by what [json.Unmarshal] makes of it at each of
    the two event types. *)
Record Document : Type := {
  as_PullRequestEvent : result PullRequestEvent;
  as_IssueCommentEvent : result IssueCommentEvent;
}.

Definition no_PullRequest : PullRequest :=
  {| User_Login := ""; Head_SHA := ""; Base_Ref := ""; Number := 0 |}.

Definition no_IssueComment : IssueCommentEvent :=
  {| Comment_User_Login := ""; Comment_Body := ""; Issue_Number := 0;
     Issue_IsPullRequest := false |}.

(** [json.Marshal] of a pull-request event: decoding the document gives the
    event back; read as an issue-comment event it has none of the keys. *)
Definition json_Marshal (pre : PullRequestEvent) : Document :=
  {| as_PullRequestEvent := Ok pre; as_IssueCommentEvent := Ok no_IssueComment |}.

Record HTTPResponse : Type := {
  StatusCode : Z;
  Status : string;   (* such as 200 OK *)
  Body : string;
}.

(** [github.RepositoryContent]: [GetContent] decodes the file or fails. *)
Record RepositoryContent : Type := { GetContent : result string }.

(** The calls that leave the process. *)
Inductive Call : Type :=
  | HttpGet (url : string)
  | GetContents (owner repo path ref : string)
  | GetPull (owner repo : string) (number : Z)
  | CreateStatus (owner repo sha state description context : string)
  | CreateComment (owner repo : string) (number : Z) (body : string).

(** The external collaborators, as the answers they give.
    - [http_Do url] is the answer to the GET of [url]; it is [None] when
      [http.NewRequestWithContext] builds no request from [url] (the URL
      does not parse), so that no GET is made.
    - [Repositories_GetContents owner repo path ref] is the answer of
      [GetContents]; without error, the file is [None] when [path] names
      a directory (the file returned is nil). *)
Record World : Type := {
  http_Do : string -> option (result HTTPResponse);
  Repositories_GetContents :
    string -> string -> string -> string -> result (option RepositoryContent);
  PullRequests_Get : string -> string -> Z -> result PullRequest;
  can_write : string -> bool;   (* whether [os.WriteFile] succeeds at a path *)
}.

(** What a run changes: the files on disk and the calls made so far. *)
Record State : Type := {
  files : gmap string Document;
  calls : list Call;
}.

(** ** The monad of a run: world, state and panics *)

Inductive outcome (A : Type) : Type :=
  | Returns (a : A)
  | Panics (p : panic).
Arguments Returns {A} a.
Arguments Panics {A} p.

Definition Go (A : Type) : Type := World -> State -> outcome A * State.

#[global] Instance Go_ret : MRet Go := fun A a _ s => (Returns a, s).

#[global] Instance Go_bind : MBind Go := fun A B f m w s =>
  match m w s with
  | (Returns a, s') => f a w s'
  | (Panics p, s') => (Panics p, s')
  end.

Definition lift {A : Type} (o : outcome A) : Go A := fun _ s => (o, s).

Definition call (c : Call) : Go unit := fun _ s =>
  (Returns tt, {| files := files s; calls := calls s ++ [c] |}).

Definition ask {A : Type} (f : World -> A) : Go A := fun w s => (Returns (f w), s).

(** [os.ReadFile] *)
Definition os_ReadFile (path : string) : Go (result Document) := fun _ s =>
  match files s !! path with
  | Some d => (Returns (Ok d), s)
  | None => (Returns (Err (errors_New ("open " ++ path ++ ": no such file or directory"))), s)
  end.

(** [os.WriteFile], as the program uses it: the error is discarded. *)
Definition os_WriteFile (path : string) (d : Document) : Go unit := fun w s =>
  if can_write w path
  then (Returns tt, {| files := <[path := d]> (files s); calls := calls s |})
  else (Returns tt, s).

(** The calls that only post: commit statuses and comments. *)
Definition is_post (c : Call) : bool :=
  match c with
  | CreateStatus _ _ _ _ _ _ | CreateComment _ _ _ _ => true
  | _ => false
  end.

Definition posted (s : State) : list Call := List.filter is_post (calls s).

(** ** The program (cmd/clabot.go) *)

Section Program.
Context `{strings_pkg : GoStrings}.

Record cfg : Type := {
  RepoOwner : string;
  RepoName : string;
  EventName : string;
  EventPath : string;
  SignersPath : string;
  Token : string;
  GoogleSheetUrl : string;
  CommentMsg : string;
  IgnoreAuthors : gset string;
}.

(** The environment: [os.Getenv], the empty string for a variable not set. *)
Definition Env : Type := string -> string.

(** The loop of [fromEnv] over the names to ignore. *)
Definition ignoreLoop (names : list string) (set : gset string) : gset string :=
  foldl (fun acc a => {[ ToLower (TrimSpace a) ]} ∪ acc) set names.

Definition fromEnv (Getenv : Env) : outcome cfg :=
  let repo := Getenv "GITHUB_REPOSITORY" in
  let s := Split repo "/" in
  match s !! 0%nat with
  | None => Panics (IndexOutOfRange 0 (length s))
  | Some owner =>
      match s !! 1%nat with
      | None => Panics (IndexOutOfRange 1 (length s))
      | Some name =>
          let raw := Getenv "BOT_IGNORE_AUTHORS" in
          let raw := if decide (raw = "") then "github-actions[bot]" else raw in
          let msg := Getenv "COMMENT_MSG" in
          Returns
            {| RepoOwner := owner;
               RepoName := name;
               EventName := Getenv "GITHUB_EVENT_NAME";
               EventPath := Getenv "GITHUB_EVENT_PATH";
               SignersPath := Getenv "SIGNERS_PATH";
               Token := Getenv "GITHUB_TOKEN";
               GoogleSheetUrl := Getenv "GOOGLE_SHEET_URL";
               CommentMsg :=
                 if decide (msg = "")
                 then "Please sign the CLA and then comment `@cla-bot check` on this PR."
                 else msg;
               IgnoreAuthors := ignoreLoop (Split raw ",") ∅ |}
      end
  end.

(** The loop of [loadSignersFromGoogleSheet] over the rows, [i] the index
    of the first of [rows]. *)
Fixpoint sheetLoop (i : nat) (rows : list (list string)) (signers : gset string)
    : outcome (gset string) :=
  match rows with
  | [] => Returns signers
  | row :: rest =>
      if (i =? 0)%nat then sheetLoop (S i) rest signers        (* skip header row *)
      else if (length row =? 0)%nat then sheetLoop (S i) rest signers
      else
        match row !! 1%nat with
        | None => Panics (IndexOutOfRange 1 (length row))
        | Some field =>
            let login := ToLower (TrimSpace field) in
            if decide (login = "") then sheetLoop (S i) rest signers
            else sheetLoop (S i) rest ({[ login ]} ∪ signers)
        end
  end.

Definition loadSignersFromGoogleSheet (csvURL : string) : Go (result (gset string)) :=
  if decide (csvURL = "") then mret (Err (errors_New "csv url not provided"))
  else
    (* the error of http.NewRequestWithContext is discarded *)
    req ← ask (fun w => http_Do w csvURL);
    match req with
    | None => lift (Panics NilDereference)     (* http.DefaultClient.Do(nil) *)
    | Some answer =>
        _ ← call (HttpGet csvURL);
        match answer with
        | Err e => mret (Err e)
        | Ok resp =>
            if decide (StatusCode resp = 200%Z) then
              match Csv.ReadAll (Body resp) with
              | Err e => mret (Err e)
              | Ok rows =>
                  signers ← lift (sheetLoop 0 rows ∅);
                  mret (Ok signers)
              end
            else mret (Err (errors_New ("google sheets returned " ++ Status resp)))
        end
    end.

(** The loop of [loadSignersGithub] over the lines of the file. *)
Definition fileLoop (lines : list string) (set : gset string) : gset string :=
  foldl (fun acc line =>
           let line := TrimSpace line in
           if negb (isEmpty line) && negb (HasPrefix line "#")
           then {[ ToLower line ]} ∪ acc
           else acc)
        set lines.

Definition loadSignersGithub (c : cfg) (ref : string) : Go (result (gset string)) :=
  _ ← call (GetContents (RepoOwner c) (RepoName c) (SignersPath c) ref);
  file ← ask (fun w => Repositories_GetContents w (RepoOwner c) (RepoName c) (SignersPath c) ref);
  match file with
  | Err e => mret (Err e)
  | Ok None => lift (Panics NilDereference)     (* file.GetContent() on a nil file *)
  | Ok (Some file) =>
      match GetContent file with
      | Err e => mret (Err e)
      | Ok s => mret (Ok (fileLoop (Split s LF) ∅))
      end
  end.

(** [for k := range m { merged[k] = struct{}{} }] *)
Definition mergeInto (merged m : gset string) : gset string :=
  set_fold (fun k acc => {[ k ]} ∪ acc) merged m.

Definition loadSigners (c : cfg) (ref : string) : Go (result (gset string)) :=
  let merged : gset string := ∅ in
  sheet ← (if decide (GoogleSheetUrl c = "") then mret (Ok merged)
           else
             m ← loadSignersFromGoogleSheet (GoogleSheetUrl c);
             match m with
             | Err e => mret (Err (Errorf_w "sheet: " e))
             | Ok m => mret (Ok (mergeInto merged m))
             end);
  match sheet with
  | Err e => mret (Err e)
  | Ok merged =>
      if decide (SignersPath c = "") then mret (Ok merged)
      else
        m ← loadSignersGithub c ref;
        match m with
        | Err e => mret (Err (Errorf_w "repo file: " e))
        | Ok m => mret (Ok (mergeInto merged m))
        end
  end.

Definition postStatus (c : cfg) (sha state description : string) : Go unit :=
  call (CreateStatus (RepoOwner c) (RepoName c) sha state description "CLA check").

Definition postComment (c : cfg) (prNumber : Z) (body : string) : Go unit :=
  call (CreateComment (RepoOwner c) (RepoName c) prNumber body).

(** [parseEvent path v], with [decode] what [json.Unmarshal] does at the
    type of [v]. *)
Definition parseEvent {T : Type} (decode : Document -> result T) (path : string)
    : Go (result T) :=
  data ← os_ReadFile path;
  match data with
  | Err e => mret (Err e)
  | Ok data => mret (decode data)
  end.

Definition CLA_signed : string := "CLA signed ✔️".
Definition CLA_not_signed : string := "CLA not signed ❌".

Definition handlePullRequest (c : cfg) : Go (option error) :=
  ev ← parseEvent as_PullRequestEvent (EventPath c);
  match ev with
  | Err e => mret (Some e)
  | Ok ev =>
      let pr := GetPullRequest ev in
      let author := ToLower (User_Login pr) in
      let sha := Head_SHA pr in
      signers ← loadSigners c (Base_Ref pr);
      match signers with
      | Err e => mret (Some e)
      | Ok signers =>
          if decide (author ∈ signers) then
            _ ← postStatus c sha "success" CLA_signed;
            mret None
          else
            _ ← postStatus c sha "failure" CLA_not_signed;
            let msg := ("@" ++ author ++ " " ++ CommentMsg c)%string in
            _ ← postComment c (Number pr) msg;
            mret None
      end
  end.

Definition tmpFile : string := "/tmp/pr_event.json".

Definition handleIssueComment (c : cfg) : Go (option error) :=
  ev ← parseEvent as_IssueCommentEvent (EventPath c);
  match ev with
  | Err e => mret (Some e)
  | Ok ev =>
      (* Ignore comments written by the bot itself *)
      let author := ToLower (Comment_User_Login ev) in
      if decide (author ∈ IgnoreAuthors c) then mret None
      (* We only care if the comment is on a PR *)
      else if negb (Issue_IsPullRequest ev) then mret None
      else
        let body := ToLower (Comment_Body ev) in
        if negb (Contains body "@cla-bot") && negb (Contains body "cla-bot check")
        then mret None
        else
          let prNum := Issue_Number ev in
          _ ← call (GetPull (RepoOwner c) (RepoName c) prNum);
          pr ← ask (fun w => PullRequests_Get w (RepoOwner c) (RepoName c) prNum);
          match pr with
          | Err e => mret (Some e)
          | Ok pr =>
              let pre := {| GetPullRequest := pr |} in
              let tmp := json_Marshal pre in
              _ ← os_WriteFile tmpFile tmp;
              let subCfg :=
                {| RepoOwner := RepoOwner c;
                   RepoName := RepoName c;
                   EventName := "pull_request";
                   EventPath := tmpFile;
                   SignersPath := SignersPath c;
                   Token := Token c;
                   GoogleSheetUrl := GoogleSheetUrl c;
                   CommentMsg := CommentMsg c;
                   IgnoreAuthors := IgnoreAuthors c |} in
              handlePullRequest subCfg
          end
  end.

(** [main]: the error a handler returns is logged, nothing else. *)
Definition main (Getenv : Env) : Go (option error) :=
  c ← lift (fromEnv Getenv);
  if decide (EventName c = "pull_request") then handlePullRequest c
  else if decide (EventName c = "issue_comment") then handleIssueComment c
  else mret None.

(** ** Definitions for the statements *)

(** The part of [handlePullRequest] after the event is decoded (the
    specification's Resolve Compliance); [handlePullRequest_resolve] below
    shows that the handler is the decoding followed by it. *)
Definition resolveCompliance (c : cfg) (pr : PullRequest) : Go (option error) :=
  let author := ToLower (User_Login pr) in
  let sha := Head_SHA pr in
  signers ← loadSigners c (Base_Ref pr);
  match signers with
  | Err e => mret (Some e)
  | Ok signers =>
      if decide (author ∈ signers) then
        _ ← postStatus c sha "success" CLA_signed;
        mret None
      else
        _ ← postStatus c sha "failure" CLA_not_signed;
        let msg := ("@" ++ author ++ " " ++ CommentMsg c)%string in
        _ ← postComment c (Number pr) msg;
        mret None
  end.

(** The state after the calls [delta] were made. *)
Definition addCalls (s : State) (delta : list Call) : State :=
  {| files := files s; calls := calls s ++ delta |}.

(** The calls that report a verdict. *)
Definition verdict_calls (c : cfg) (pr : PullRequest) (signers : gset string)
    : list Call :=
  let author := ToLower (User_Login pr) in
  if decide (author ∈ signers)
  then [CreateStatus (RepoOwner c) (RepoName c) (Head_SHA pr) "success" CLA_signed
          "CLA check"]
  else [CreateStatus (RepoOwner c) (RepoName c) (Head_SHA pr) "failure" CLA_not_signed
          "CLA check";
        CreateComment (RepoOwner c) (RepoName c) (Number pr)
          ("@" ++ author ++ " " ++ CommentMsg c)].

(** Lists of calls that post nothing. *)
Definition no_post (delta : list Call) : Prop := List.filter is_post delta = [].

Definition any_calls (delta : list Call) : Prop := True.

(** [m] never looks at the state: in world [w] it has one outcome and
    appends one list of calls, which satisfies [P]. *)
Definition appends (P : list Call -> Prop) {A : Type} (m : Go A) (w : World) : Prop :=
  exists (o : outcome A) (delta : list Call),
    P delta /\ forall s, m w s = (o, addCalls s delta).

(** ** Fixtures: a configuration and worlds to run the program in *)

Definition demo_cfg : cfg :=
  {| RepoOwner := "your-org";
     RepoName := "awesome-project";
     EventName := "pull_request";
     EventPath := "/github/workflow/event.json";
     SignersPath := "cla-signers.txt";
     Token := "token";
     GoogleSheetUrl := "https://sheets.example/pub?output=csv";
     CommentMsg := "Please sign the CLA.";
     IgnoreAuthors := {[ "github-actions[bot]" ]} |}.

Definition with_sources (sheetUrl signersPath : string) (c : cfg) : cfg :=
  {| RepoOwner := RepoOwner c; RepoName := RepoName c; EventName := EventName c;
     EventPath := EventPath c; SignersPath := signersPath; Token := Token c;
     GoogleSheetUrl := sheetUrl; CommentMsg := CommentMsg c;
     IgnoreAuthors := IgnoreAuthors c |}.

Definition demo_world (sheet : result HTTPResponse) (file : result string)
    (pull : result PullRequest) (writable : bool) : World :=
  {| http_Do := fun _ => Some sheet;
     Repositories_GetContents := fun _ _ _ _ => Ok (Some {| GetContent := file |});
     PullRequests_Get := fun _ _ _ => pull;
     can_write := fun _ => writable |}.

(** A world whose signer path is a directory: the fetch returns no file and
    no error. *)
Definition directory_world (sheet : result HTTPResponse) : World :=
  {| http_Do := fun _ => Some sheet;
     Repositories_GetContents := fun _ _ _ _ => Ok None;
     PullRequests_Get := fun _ _ _ => Err (errors_New "unused");
     can_write := fun _ => true |}.

Definition http_200 (body : string) : result HTTPResponse :=
  Ok {| StatusCode := 200; Status := "200 OK"; Body := body |}.

Definition http_500 : result HTTPResponse :=
  Ok {| StatusCode := 500; Status := "500 Internal Server Error"; Body := "" |}.

Definition spec_csv : string :=
  "header1,header2" ++ LF ++ "Foo Bar,alice" ++ LF ++ "Baz,Bob".

Definition spec_signers_file : string :=
  "# comment" ++ LF ++ LF ++ "Alice" ++ LF ++ "BOB" ++ LF.

Definition one_column_csv : string := "login" ++ LF ++ "alice" ++ LF.

Definition demo_pr (login : string) : PullRequest :=
  {| User_Login := login; Head_SHA := "0a1b2c3"; Base_Ref := "main"; Number := 7 |}.

Definition pull_request_payload (pr : PullRequest) : Document :=
  json_Marshal {| GetPullRequest := pr |}.

Definition issue_comment_payload (ev : IssueCommentEvent) : Document :=
  {| as_PullRequestEvent := Ok {| GetPullRequest := no_PullRequest |};
     as_IssueCommentEvent := Ok ev |}.

Definition demo_comment (login body : string) (isPR : bool) : IssueCommentEvent :=
  {| Comment_User_Login := login; Comment_Body := body; Issue_Number := 7;
     Issue_IsPullRequest := isPR |}.

(** A state with one file, the event payload, and no call made. *)
Definition start (path : string) (d : Document) : State :=
  {| files := {[ path := d ]}; calls := [] |}.

Definition no_env : Env := fun _ => "".

Definition env_repo (repo : string) : Env :=
  fun k => if decide (k = "GITHUB_REPOSITORY") then repo else "".

(** Records that all have [n] fields. *)
Definition uniform (n : nat) (rows : list (list string)) : Prop :=
  Forall (fun row => length row = n) rows.

(** What a run may post and how it then ends: nothing; or, ending without
    error, one success status; or, ending without error, one failure status
    followed by one comment. *)
Definition one_verdict (o : outcome (option error)) (posts : list Call) : Prop :=
  posts = [] \/
  o = Returns None /\
  ((exists owner name sha,
       posts = [CreateStatus owner name sha "success" CLA_signed "CLA check"]) \/
   (exists owner name sha number body,
       posts = [CreateStatus owner name sha "failure" CLA_not_signed "CLA check";
                CreateComment owner name number body])).

(** The configuration [handleIssueComment] hands to [handlePullRequest]. *)
Definition subCfg_of (c : cfg) : cfg :=
  {| RepoOwner := RepoOwner c;
     RepoName := RepoName c;
     EventName := "pull_request";
     EventPath := tmpFile;
     SignersPath := SignersPath c;
     Token := Token c;
     GoogleSheetUrl := GoogleSheetUrl c;
     CommentMsg := CommentMsg c;
     IgnoreAuthors := IgnoreAuthors c |}.

(** The state in which [handleIssueComment] calls [handlePullRequest]: the
    pull request [number] was fetched, and the event of [pr] is in the
    temporary file if the write succeeded. *)
Definition fetched (w : World) (s : State) (c : cfg) (number : Z) (pr : PullRequest)
    : State :=
  {| files := if can_write w tmpFile
              then <[tmpFile := json_Marshal {| GetPullRequest := pr |}]> (files s)
              else files s;
     calls := calls s ++ [GetPull (RepoOwner c) (RepoName c) number] |}.

(** An environment given by a list of bindings, the first for a name
    counting. *)
Fixpoint env_of (bindings : list (string * string)) : Env :=
  fun k =>
    match bindings with
    | [] => ""
    | (name, value) :: rest => if decide (k = name) then value else env_of rest k
    end.

Definition demo_env (event : string) : Env :=
  env_of [("GITHUB_REPOSITORY", "your-org/awesome-project");
          ("GITHUB_EVENT_NAME", event);
          ("GITHUB_EVENT_PATH", "/github/workflow/event.json");
          ("SIGNERS_PATH", "cla-signers.txt");
          ("GITHUB_TOKEN", "token")].

(** The entries of the two signer sources, as they stand in the sources.
    An entry of the sheet is the second column of a record after the header
    of the CSV document that the GET of the sheet returns with status 200;
    an entry of the signer file is a line of its content that, trimmed, is
    neither empty nor a comment. *)
Definition sheet_entry (c : cfg) (w : World) (e : string) : Prop :=
  GoogleSheetUrl c <> "" /\
  exists resp rows j row,
    http_Do w (GoogleSheetUrl c) = Some (Ok resp) /\
    StatusCode resp = 200%Z /\
    Csv.ReadAll (Body resp) = Ok rows /\
    (1 <= j)%nat /\ rows !! j = Some row /\ row !! 1%nat = Some e.

Definition ascii_sources (c : cfg) (ref : string) (w : World) : Prop :=
  (forall resp,
      http_Do w (GoogleSheetUrl c) = Some (Ok resp) -> isASCII (Body resp) = true) /\
  (forall file content,
      Repositories_GetContents w (RepoOwner c) (RepoName c) (SignersPath c) ref
        = Ok (Some file) ->
      GetContent file = Ok content -> isASCII content = true).

Definition file_entry (c : cfg) (w : World) (ref : string) (e : string) : Prop :=
  SignersPath c <> "" /\
  exists file content,
    Repositories_GetContents w (RepoOwner c) (RepoName c) (SignersPath c) ref
      = Ok (Some file) /\
    GetContent file = Ok content /\
    In e (Split content LF) /\
    TrimSpace e <> "" /\ HasPrefix (TrimSpace e) "#" = false.

End Program.

(** * Properties *)

Section Properties.
Context `{strings_pkg : GoStrings}.

(** ** The models at work *)

Example ToLower_BOB : ToLowerASCII "BOB" = "bob".
Proof. reflexivity. Qed.

Example TrimSpace_Alice : TrimSpaceASCII " Alice  " = "Alice".
Proof. reflexivity. Qed.

Example Split_owner_repo : Split "your-org/awesome-project" "/" = ["your-org"; "awesome-project"].
Proof. reflexivity. Qed.

Example Split_sep2 : Split "a--b--" "--" = ["a"; "b"; ""].
Proof. reflexivity. Qed.

Example Split_none : Split "norepo" "/" = ["norepo"].
Proof. reflexivity. Qed.

Example Contains_trigger : Contains "hey @cla-bot check" "cla-bot check" = true.
Proof. reflexivity. Qed.

Example ReadAll_two_columns :
  Csv.ReadAll ("header1,header2" ++ LF ++ "Foo Bar,alice" ++ LF ++ "Baz,Bob")
  = Ok [["header1"; "header2"]; ["Foo Bar"; "alice"]; ["Baz"; "Bob"]].
Proof. reflexivity. Qed.

Example ReadAll_one_column :
  Csv.ReadAll ("login" ++ LF ++ "alice" ++ LF) = Ok [["login"]; ["alice"]].
Proof. reflexivity. Qed.

Example ReadAll_crlf_and_empty_lines :
  Csv.ReadAll ("a,b" ++ CR ++ LF ++ LF ++ "c," ++ CR)
  = Ok [["a"; "b"]; ["c"; ""]].
Proof. reflexivity. Qed.

Example ReadAll_quoted :
  Csv.ReadAll (String Csv.quote ("x,y" ++ LF ++ "z" ++ String Csv.quote (",b" ++ LF)))%string
  = Ok [[("x,y" ++ LF ++ "z")%string; "b"]].
Proof. reflexivity. Qed.

Example ReadAll_field_count :
  Csv.ReadAll ("a,b" ++ LF ++ "c" ++ LF) = Err (csv_ParseError ErrFieldCount).
Proof. reflexivity. Qed.

(** ** Runs that only append calls *)

Lemma addCalls_nil (s : State) : addCalls s [] = s.
Proof. destruct s; unfold addCalls; simpl. by rewrite app_nil_r. Qed.

Lemma addCalls_app (s : State) (d1 d2 : list Call) :
  addCalls (addCalls s d1) d2 = addCalls s (d1 ++ d2).
Proof. unfold addCalls; simpl. by rewrite app_assoc. Qed.

Lemma posted_addCalls (s : State) (delta : list Call) :
  posted (addCalls s delta) = posted s ++ List.filter is_post delta.
Proof. unfold posted, addCalls; simpl. apply List.filter_app. Qed.

Section Appends.
Variable P : list Call -> Prop.
Hypothesis P_nil : P [].
Hypothesis P_app : forall d1 d2, P d1 -> P d2 -> P (d1 ++ d2).

Lemma appends_ret {A : Type} (a : A) (w : World) : appends P (mret a) w.
Proof.
  exists (Returns a), []. split; [exact P_nil|].
  intros s. by rewrite addCalls_nil.
Qed.

Lemma appends_lift {A : Type} (o : outcome A) (w : World) : appends P (lift o) w.
Proof.
  exists o, []. split; [exact P_nil|].
  intros s. by rewrite addCalls_nil.
Qed.

Lemma appends_ask {A : Type} (f : World -> A) (w : World) : appends P (ask f) w.
Proof.
  exists (Returns (f w)), []. split; [exact P_nil|].
  intros s. by rewrite addCalls_nil.
Qed.

Lemma appends_call (c : Call) (w : World) : P [c] -> appends P (call c) w.
Proof. intros Hc. exists (Returns tt), [c]. split; [exact Hc|]. reflexivity. Qed.

Lemma appends_bind {A B : Type} (m : Go A) (f : A -> Go B) (w : World) :
  appends P m w -> (forall a, appends P (f a) w) -> appends P (m ≫= f) w.
Proof.
  intros (o & d1 & Hd1 & Hm) Hf.
  destruct o as [a|p].
  - destruct (Hf a) as (o2 & d2 & Hd2 & Hfa).
    exists o2, (d1 ++ d2). split; [by apply P_app|].
    intros s. unfold mbind, Go_bind. by rewrite Hm, Hfa, addCalls_app.
  - exists (Panics p), d1. split; [exact Hd1|].
    intros s. unfold mbind, Go_bind. by rewrite Hm.
Qed.
End Appends.

Lemma no_post_nil : no_post [].
Proof. reflexivity. Qed.

Lemma no_post_app (d1 d2 : list Call) : no_post d1 -> no_post d2 -> no_post (d1 ++ d2).
Proof. unfold no_post. intros H1 H2. by rewrite List.filter_app, H1, H2. Qed.

Lemma any_calls_app (d1 d2 : list Call) : any_calls d1 -> any_calls d2 -> any_calls (d1 ++ d2).
Proof. intros _ _. exact I. Qed.

Ltac appends_side :=
  first [ exact no_post_nil | exact no_post_app | exact I | exact any_calls_app | reflexivity ].

Ltac appends_step :=
  first
    [ apply appends_ret; appends_side
    | apply appends_lift; appends_side
    | apply appends_ask; appends_side
    | apply appends_call; appends_side
    | apply appends_bind; [ appends_side | | intros ? ]
    | case_decide
    | case_match ].

Lemma loadSignersFromGoogleSheet_appends (url : string) (w : World) :
  appends no_post (loadSignersFromGoogleSheet url) w.
Proof. unfold loadSignersFromGoogleSheet. repeat appends_step. Qed.

Lemma loadSignersGithub_appends (c : cfg) (ref : string) (w : World) :
  appends no_post (loadSignersGithub c ref) w.
Proof. unfold loadSignersGithub. repeat appends_step. Qed.

Lemma loadSigners_appends (c : cfg) (ref : string) (w : World) :
  appends no_post (loadSigners c ref) w.
Proof.
  unfold loadSigners.
  apply appends_bind; [exact no_post_app | | intros sheet].
  - case_decide; [apply appends_ret, no_post_nil|].
    apply appends_bind; [exact no_post_app | | intros m].
    + apply loadSignersFromGoogleSheet_appends.
    + destruct m; apply appends_ret, no_post_nil.
  - destruct sheet as [merged|e]; [|apply appends_ret, no_post_nil].
    case_decide; [apply appends_ret, no_post_nil|].
    apply appends_bind; [exact no_post_app | | intros m].
    + apply loadSignersGithub_appends.
    + destruct m; apply appends_ret, no_post_nil.
Qed.

(** ** Lemmas on the [strings] model *)

Lemma splitFrom_nonempty (sep s : string) (k : nat) : splitFrom sep s k <> [].
Proof.
  revert k. induction s as [|c r IH]; intros k; cbn [splitFrom]; [discriminate|].
  destruct k; [|apply IH].
  destruct (HasPrefix (String c r) sep); [discriminate|].
  destruct (splitFrom sep r 0); discriminate.
Qed.

Lemma HasPrefix_empty (s : string) : HasPrefix s "" = true.
Proof. by destruct s. Qed.

Lemma Index_slash_cons (c : ascii) (r : string) :
  Index (String c r) "/" =
  if Ascii.eqb "/" c then Some 0%nat else option_map S (Index r "/").
Proof.
  cbn [Index HasPrefix]. rewrite HasPrefix_empty.
  by destruct (Ascii.eqb "/" c).
Qed.

Lemma splitFrom_slash_cons (c : ascii) (r : string) :
  splitFrom "/" (String c r) 0 =
  if Ascii.eqb "/" c then "" :: splitFrom "/" r 0
  else match splitFrom "/" r 0 with
       | piece :: rest => String c piece :: rest
       | [] => [String c ""]
       end.
Proof.
  cbn [splitFrom HasPrefix]. rewrite HasPrefix_empty.
  by destruct (Ascii.eqb "/" c).
Qed.

Lemma Split_no_slash (s : string) :
  Contains s "/" = false -> Split s "/" = [s].
Proof.
  unfold Contains, Split.
  induction s as [|c r IH]; [reflexivity|].
  rewrite Index_slash_cons, splitFrom_slash_cons.
  destruct (Ascii.eqb "/" c); [discriminate|].
  destruct (Index r "/"); [discriminate|].
  intros _. by rewrite IH.
Qed.

Lemma Split_slash (s : string) :
  Contains s "/" = true -> exists a b rest, Split s "/" = a :: b :: rest.
Proof.
  unfold Contains, Split.
  induction s as [|c r IH]; [discriminate|].
  rewrite Index_slash_cons, splitFrom_slash_cons.
  destruct (Ascii.eqb "/" c).
  - intros _. pose proof (splitFrom_nonempty "/" r 0) as Hne.
    destruct (splitFrom "/" r 0) as [|b rest]; [done|]. by eexists _, _, _.
  - destruct (Index r "/"); [|discriminate].
    intros _. destruct IH as (a & b & rest & ->); [done|]. by eexists _, _, _.
Qed.

(** ** The two string operations on ASCII text *)

Lemma isASCII_trimLeftSpace (s : string) :
  isASCII s = true -> isASCII (trimLeftSpace s) = true.
Proof.
  induction s as [|c r IH]; [done|].
  cbn [trimLeftSpace]. destruct (isSpace c); [|done].
  cbn [isASCII]. intros [_ Hr]%andb_true_iff. by apply IH.
Qed.

Lemma isASCII_trimRightSpace (s : string) :
  isASCII s = true -> isASCII (trimRightSpace s) = true.
Proof.
  induction s as [|c r IH]; [done|].
  cbn [trimRightSpace isASCII]. intros [Hc Hr]%andb_true_iff.
  destruct (isSpace c && isEmpty (trimRightSpace r)); [done|].
  cbn [isASCII]. by rewrite Hc, IH.
Qed.

Lemma isASCII_TrimSpaceASCII (s : string) :
  isASCII s = true -> isASCII (TrimSpaceASCII s) = true.
Proof.
  intros Hs. by apply isASCII_trimRightSpace, isASCII_trimLeftSpace.
Qed.

Lemma isASCII_ToLowerASCII (s : string) :
  isASCII s = true -> isASCII (ToLowerASCII s) = true.
Proof.
  induction s as [|c r IH]; [done|].
  cbn [ToLowerASCII isASCII]. intros [Hc Hr]%andb_true_iff.
  rewrite IH by done. rewrite andb_true_r.
  revert Hc. by destruct c as [[] [] [] [] [] [] [] []].
Qed.

(** On ASCII text the lowercased, trimmed form is the one of the ASCII
    operations. *)
Lemma normalize_ASCII (s : string) :
  isASCII s = true -> ToLower (TrimSpace s) = ToLowerASCII (TrimSpaceASCII s).
Proof.
  intros Hs. rewrite (TrimSpace_ASCII s Hs).
  by rewrite ToLower_ASCII by by apply isASCII_TrimSpaceASCII.
Qed.

Lemma forallb_lookup {A : Type} (P : A -> bool) (l : list A) (i : nat) (x : A) :
  forallb P l = true -> l !! i = Some x -> P x = true.
Proof.
  intros Hall Hi. rewrite forallb_forall in Hall.
  apply Hall, list_elem_of_In. by apply list_elem_of_lookup_2 with i.
Qed.

(** On rows of ASCII fields the loop over the sheet is the one of the ASCII
    operations. *)
Lemma sheetLoop_ASCII (rows : list (list string)) (i : nat) (set : gset string) :
  forallb (forallb isASCII) rows = true ->
  sheetLoop i rows set = @sheetLoop ascii_strings i rows set.
Proof.
  revert i set.
  induction rows as [|row rest IH]; intros i set; [reflexivity|].
  cbn [forallb]. intros [Hrow Hrest]%andb_true_iff.
  cbn [sheetLoop].
  destruct (i =? 0)%nat; [by apply IH|].
  destruct (length row =? 0)%nat; [by apply IH|].
  destruct (row !! 1%nat) as [field|] eqn:Hfield; [|reflexivity].
  rewrite (normalize_ASCII field (forallb_lookup _ _ _ _ Hrow Hfield)).
  change (@ToLower ascii_strings (@TrimSpace ascii_strings field))
    with (ToLowerASCII (TrimSpaceASCII field)).
  destruct (decide (ToLowerASCII (TrimSpaceASCII field) = "")); by apply IH.
Qed.

(** On ASCII lines the loop over the signer file is the one of the ASCII
    operations. *)
Lemma fileLoop_ASCII (lines : list string) (set : gset string) :
  forallb isASCII lines = true ->
  fileLoop lines set = @fileLoop ascii_strings lines set.
Proof.
  unfold fileLoop. revert set.
  induction lines as [|line rest IH]; intros set; [reflexivity|].
  cbn [forallb]. intros [Hline Hrest]%andb_true_iff.
  cbn [foldl].
  rewrite (TrimSpace_ASCII line Hline).
  rewrite (ToLower_ASCII (TrimSpaceASCII line)) by by apply isASCII_TrimSpaceASCII.
  by apply IH.
Qed.

(** On ASCII names the loop over the ignore-list is the one of the ASCII
    operations. *)
Lemma ignoreLoop_ASCII (names : list string) (set : gset string) :
  forallb isASCII names = true ->
  ignoreLoop names set = @ignoreLoop ascii_strings names set.
Proof.
  unfold ignoreLoop. revert set.
  induction names as [|name rest IH]; intros set; [reflexivity|].
  cbn [forallb]. intros [Hname Hrest]%andb_true_iff.
  cbn [foldl]. rewrite (normalize_ASCII name Hname). by apply IH.
Qed.

(** ** The readers, run *)

Lemma loadSignersFromGoogleSheet_run (url : string) (w : World) (s : State) :
  url <> "" ->
  loadSignersFromGoogleSheet url w s =
  match http_Do w url with
  | None => (Panics NilDereference, s)
  | Some answer =>
      (match answer with
       | Err e => Returns (Err e)
       | Ok resp =>
           if decide (StatusCode resp = 200%Z) then
             match Csv.ReadAll (Body resp) with
             | Err e => Returns (Err e)
             | Ok rows =>
                 match sheetLoop 0 rows ∅ with
                 | Returns signers => Returns (Ok signers)
                 | Panics p => Panics p
                 end
             end
           else Returns (Err (errors_New ("google sheets returned " ++ Status resp)))
       end,
       addCalls s [HttpGet url])
  end.
Proof.
  intros Hurl. unfold loadSignersFromGoogleSheet.
  rewrite decide_False by done.
  unfold mbind, Go_bind, mret, Go_ret, call, ask, lift.
  destruct (http_Do w url) as [[resp|e]|]; [|reflexivity|reflexivity].
  destruct (decide (StatusCode resp = 200%Z)); [|reflexivity].
  destruct (Csv.ReadAll (Body resp)) as [rows|err]; [|reflexivity].
  by destruct (sheetLoop 0 rows ∅).
Qed.

Lemma loadSignersGithub_run (c : cfg) (ref : string) (w : World) (s : State) :
  loadSignersGithub c ref w s =
  (match Repositories_GetContents w (RepoOwner c) (RepoName c) (SignersPath c) ref with
   | Err e => Returns (Err e)
   | Ok None => Panics NilDereference
   | Ok (Some file) =>
       match GetContent file with
       | Err e => Returns (Err e)
       | Ok content => Returns (Ok (fileLoop (Split content LF) ∅))
       end
   end,
   addCalls s [GetContents (RepoOwner c) (RepoName c) (SignersPath c) ref]).
Proof.
  unfold loadSignersGithub, mbind, Go_bind, mret, Go_ret, call, ask, lift.
  destruct (Repositories_GetContents w _ _ _ _) as [[file|]|e]; [|reflexivity..].
  by destruct (GetContent file).
Qed.

(** ** Lemmas on the loops *)

Lemma mergeInto_union (merged m : gset string) : mergeInto merged m = merged ∪ m.
Proof.
  unfold mergeInto.
  apply (set_fold_ind_L (fun r X => r = merged ∪ X)).
  - set_solver.
  - intros x X r _ ->. set_solver.
Qed.

Lemma handlePullRequest_resolve (c : cfg) (w : World) (s : State)
    (d : Document) (ev : PullRequestEvent) :
  files s !! EventPath c = Some d ->
  as_PullRequestEvent d = Ok ev ->
  handlePullRequest c w s = resolveCompliance c (GetPullRequest ev) w s.
Proof.
  intros Hf Hd.
  unfold handlePullRequest, resolveCompliance, parseEvent, os_ReadFile.
  unfold mbind, Go_bind, mret, Go_ret. rewrite Hf. by rewrite Hd.
Qed.

Lemma loadSigners_run (c : cfg) (ref : string) (w : World) (s : State) :
  loadSigners c ref w s =
  match (if decide (GoogleSheetUrl c = "") then (Returns (Ok ∅), s)
         else loadSignersFromGoogleSheet (GoogleSheetUrl c) w s) with
  | (Panics p, s1) => (Panics p, s1)
  | (Returns (Err e), s1) => (Returns (Err (Errorf_w "sheet: " e)), s1)
  | (Returns (Ok m1), s1) =>
      match (if decide (SignersPath c = "") then (Returns (Ok ∅), s1)
             else loadSignersGithub c ref w s1) with
      | (Panics p, s2) => (Panics p, s2)
      | (Returns (Err e), s2) => (Returns (Err (Errorf_w "repo file: " e)), s2)
      | (Returns (Ok m2), s2) => (Returns (Ok (m1 ∪ m2)), s2)
      end
  end.
Proof.
  unfold loadSigners, mbind, Go_bind, mret, Go_ret.
  destruct (decide (GoogleSheetUrl c = "")) as [Hu|Hu].
  - destruct (decide (SignersPath c = "")) as [Hp|Hp].
    + by rewrite (left_id_L ∅ (∪)).
    + destruct (loadSignersGithub c ref w s) as [[[m2|e]|p] s2]; try reflexivity.
      by rewrite mergeInto_union.
  - destruct (loadSignersFromGoogleSheet (GoogleSheetUrl c) w s) as [[[m1|e]|p] s1];
      try reflexivity.
    rewrite mergeInto_union, (left_id_L ∅ (∪)).
    destruct (decide (SignersPath c = "")) as [Hp|Hp].
    + by rewrite (right_id_L ∅ (∪)).
    + destruct (loadSignersGithub c ref w s1) as [[[m2|e]|p] s2]; try reflexivity.
      by rewrite mergeInto_union.
Qed.

(** ** The claims *)

(** C9: aggregation of the configured signer sources is a set union.  The
    loop that merges a source into the aggregate computes the union, so
    merging is independent of the order of the sources and idempotent
    (merging [{A,B}] then [{B,C}] gives [{A,B,C}] in either order); a source
    that is not configured contributes nothing and is no failure: with both
    sources unconfigured [loadSigners] returns the empty set and no error,
    with one configured it returns that source's set, and with both it
    returns the union of the two sets. *)
Theorem aggregation_is_union (c : cfg) (ref : string) (w : World) (s : State) :
  (forall a b : gset string, mergeInto a b = a ∪ b) /\
  (forall a b : gset string,
      mergeInto (mergeInto ∅ a) b = mergeInto (mergeInto ∅ b) a) /\
  (forall a b : gset string, mergeInto (mergeInto a b) b = mergeInto a b) /\
  (forall A B C : string,
      mergeInto (mergeInto ∅ {[A; B]}) {[B; C]} = {[A; B; C]} /\
      mergeInto (mergeInto ∅ {[B; C]}) {[A; B]} = {[A; B; C]}) /\
  (GoogleSheetUrl c = "" -> SignersPath c = "" ->
   loadSigners c ref w s = (Returns (Ok ∅), s)) /\
  (GoogleSheetUrl c = "" -> SignersPath c <> "" ->
   forall m s', loadSignersGithub c ref w s = (Returns (Ok m), s') ->
                loadSigners c ref w s = (Returns (Ok m), s')) /\
  (GoogleSheetUrl c <> "" -> SignersPath c = "" ->
   forall m s', loadSignersFromGoogleSheet (GoogleSheetUrl c) w s = (Returns (Ok m), s') ->
                loadSigners c ref w s = (Returns (Ok m), s')) /\
  (GoogleSheetUrl c <> "" -> SignersPath c <> "" ->
   forall m1 s1 m2 s2,
     loadSignersFromGoogleSheet (GoogleSheetUrl c) w s = (Returns (Ok m1), s1) ->
     loadSignersGithub c ref w s1 = (Returns (Ok m2), s2) ->
     loadSigners c ref w s = (Returns (Ok (m1 ∪ m2)), s2)).
Proof.
  repeat split.
  - apply mergeInto_union.
  - intros a b. rewrite !mergeInto_union. set_solver.
  - intros a b. rewrite !mergeInto_union. set_solver.
  - rewrite !mergeInto_union. set_solver.
  - rewrite !mergeInto_union. set_solver.
  - intros Hu Hp. rewrite loadSigners_run.
    rewrite !decide_True by done. by rewrite (left_id_L ∅ (∪)).
  - intros Hu Hp m s' Hrepo. rewrite loadSigners_run.
    rewrite decide_True, decide_False, Hrepo by done.
    by rewrite (left_id_L ∅ (∪)).
  - intros Hu Hp m s' Hsheet. rewrite loadSigners_run.
    rewrite decide_False, Hsheet, decide_True by done.
    by rewrite (right_id_L ∅ (∪)).
  - intros Hu Hp m1 s1 m2 s2 Hsheet Hrepo. rewrite loadSigners_run.
    by rewrite decide_False, Hsheet, decide_False, Hrepo by done.
Qed.

(** C10: [fromEnv] indexes the first two pieces of GITHUB_REPOSITORY split
    on the slash.  It returns a configuration exactly when the value contains
    a slash, and the owner and the name are then the first two pieces;
    for every value without a slash (the empty string included) the split has
    one piece and the access to the second panics, index 1 out of range for
    length 1. *)
Theorem fromEnv_total_iff_slash (Getenv : Env) :
  ((exists c, fromEnv Getenv = Returns c)
   <-> Contains (Getenv "GITHUB_REPOSITORY") "/" = true) /\
  (fromEnv Getenv = Panics (IndexOutOfRange 1 1)
   <-> Contains (Getenv "GITHUB_REPOSITORY") "/" = false) /\
  (forall c, fromEnv Getenv = Returns c ->
     exists rest,
       Split (Getenv "GITHUB_REPOSITORY") "/" = RepoOwner c :: RepoName c :: rest).
Proof.
  unfold fromEnv.
  destruct (Contains (Getenv "GITHUB_REPOSITORY") "/") eqn:Hc.
  - destruct (Split_slash _ Hc) as (a & b & rest & ->). simpl.
    split; [|split].
    + split; [done|]. intros _. by eexists.
    + split; discriminate.
    + intros c [= <-]. by exists rest.
  - rewrite (Split_no_slash _ Hc). simpl.
    split; [|split].
    + split; [|discriminate]. by intros [c Hcfg].
    + done.
    + discriminate.
Qed.

(** C7: on the CSV document of the specification, fetched with status 200,
    [loadSignersFromGoogleSheet] returns exactly the set of alice and bob:
    the reader yields three records, the first is dropped as the header and
    the second column of the other two is trimmed, lowercased and inserted. *)
Theorem sheet_example (url status : string) (w : World) (s : State) :
  url <> "" ->
  http_Do w url =
    Some (Ok {| StatusCode := 200; Status := status;
                Body := "header1,header2" ++ LF ++ "Foo Bar,alice" ++ LF ++ "Baz,Bob" |}) ->
  Csv.ReadAll ("header1,header2" ++ LF ++ "Foo Bar,alice" ++ LF ++ "Baz,Bob")
    = Ok [["header1"; "header2"]; ["Foo Bar"; "alice"]; ["Baz"; "Bob"]] /\
  loadSignersFromGoogleSheet url w s
    = (Returns (Ok {[ "alice"; "bob" ]}), addCalls s [HttpGet url]).
Proof.
  intros Hurl Hresp.
  assert (Csv.ReadAll ("header1,header2" ++ LF ++ "Foo Bar,alice" ++ LF ++ "Baz,Bob")
          = Ok [["header1"; "header2"]; ["Foo Bar"; "alice"]; ["Baz"; "Bob"]]) as Hread
    by reflexivity.
  split; [exact Hread|].
  rewrite (loadSignersFromGoogleSheet_run _ _ _ Hurl), Hresp. cbn [StatusCode Body].
  rewrite decide_True, Hread by done.
  rewrite sheetLoop_ASCII by reflexivity.
  reflexivity.
Qed.

(** C8: on the signer file of the specification [loadSignersGithub] returns
    exactly the set of alice and bob: the content is split into lines, each
    line is trimmed, the comment line and the blank lines are dropped, and the
    two other lines are lowercased and inserted. *)
Theorem signer_file_example (c : cfg) (ref : string) (w : World) (s : State)
    (file : RepositoryContent) :
  Repositories_GetContents w (RepoOwner c) (RepoName c) (SignersPath c) ref
    = Ok (Some file) ->
  GetContent file = Ok ("# comment" ++ LF ++ LF ++ "Alice" ++ LF ++ "BOB" ++ LF)%string ->
  Split ("# comment" ++ LF ++ LF ++ "Alice" ++ LF ++ "BOB" ++ LF) LF
    = ["# comment"; ""; "Alice"; "BOB"; ""] /\
  loadSignersGithub c ref w s
    = (Returns (Ok {[ "alice"; "bob" ]}),
       addCalls s [GetContents (RepoOwner c) (RepoName c) (SignersPath c) ref]).
Proof.
  intros Hfile Hcontent.
  assert (Split ("# comment" ++ LF ++ LF ++ "Alice" ++ LF ++ "BOB" ++ LF) LF
          = ["# comment"; ""; "Alice"; "BOB"; ""]) as Hsplit by reflexivity.
  split; [exact Hsplit|].
  rewrite loadSignersGithub_run, Hfile, Hcontent, Hsplit.
  rewrite fileLoop_ASCII by reflexivity.
  reflexivity.
Qed.

(** C3: a sheet with a single column.  The reader yields records of one
    field; the header is skipped, and at the next record the guard of the
    loop (length zero) lets the record through, so that reading its second
    column panics instead of skipping the row: whatever the header and the
    later rows are, a second row of one field makes the loop panic.  With
    the same row behind a header of two columns the reader itself refuses
    the document. *)
Theorem one_column_sheet_panics :
  Csv.ReadAll one_column_csv = Ok [["login"]; ["alice"]] /\
  sheetLoop 0 [["login"]; ["alice"]] ∅ = Panics (IndexOutOfRange 1 1) /\
  (forall (header : list string) (field : string) (rest : list (list string)),
      sheetLoop 0 (header :: [field] :: rest) ∅ = Panics (IndexOutOfRange 1 1)) /\
  loadSignersFromGoogleSheet "https://sheets.example/pub?output=csv"
    (demo_world (http_200 one_column_csv) (Ok "") (Err (errors_New "unused")) true)
    (start "/github/workflow/event.json" (pull_request_payload (demo_pr "alice")))
  = (Panics (IndexOutOfRange 1 1),
     addCalls
       (start "/github/workflow/event.json" (pull_request_payload (demo_pr "alice")))
       [HttpGet "https://sheets.example/pub?output=csv"]) /\
  Csv.ReadAll ("login,name" ++ LF ++ "alice" ++ LF) = Err (csv_ParseError ErrFieldCount).
Proof.
  split; [reflexivity|]. split; [reflexivity|]. split; [|split].
  - intros header field rest. reflexivity.
  - vm_compute. reflexivity.
  - reflexivity.
Qed.

Lemma loadSigners_posted (c : cfg) (ref : string) (w : World) (s s' : State)
    (o : outcome (result (gset string))) :
  loadSigners c ref w s = (o, s') -> posted s' = posted s /\ files s' = files s.
Proof.
  destruct (loadSigners_appends c ref w) as (o' & delta & Hdelta & Hrun).
  rewrite Hrun. intros [= _ <-]. split; [|reflexivity].
  rewrite posted_addCalls, Hdelta. apply app_nil_r.
Qed.

Lemma resolveCompliance_run (c : cfg) (pr : PullRequest) (w : World) (s : State) :
  resolveCompliance c pr w s =
  match loadSigners c (Base_Ref pr) w s with
  | (Panics p, s1) => (Panics p, s1)
  | (Returns (Err e), s1) => (Returns (Some e), s1)
  | (Returns (Ok signers), s1) => (Returns None, addCalls s1 (verdict_calls c pr signers))
  end.
Proof.
  unfold resolveCompliance, verdict_calls, mbind, Go_bind.
  destruct (loadSigners c (Base_Ref pr) w s) as [[[signers|e]|p] s1]; try reflexivity.
  destruct (decide (ToLower (User_Login pr) ∈ signers)); [reflexivity|].
  unfold postStatus, postComment, call, mret, Go_ret, addCalls. simpl.
  by rewrite <- app_assoc.
Qed.

(** C1: a configured signer source that fails to load aborts the run.  For
    a pull-request event that decodes: when the sheet is configured and its
    reader returns an error, [loadSigners] returns that error wrapped after
    the prefix of the sheet; when the signer file is configured, the sheet
    stage is passed (not configured, or loaded) and the file reader returns
    an error, [loadSigners] returns it wrapped after the prefix of the
    repository file; and whenever [loadSigners] returns an error,
    [handlePullRequest] returns that same error and posts no commit status
    and no comment. *)
Theorem signer_source_failure_aborts (c : cfg) (w : World) (s : State)
    (d : Document) (ev : PullRequestEvent) :
  files s !! EventPath c = Some d ->
  as_PullRequestEvent d = Ok ev ->
  let ref := Base_Ref (GetPullRequest ev) in
  (forall e s1,
      GoogleSheetUrl c <> "" ->
      loadSignersFromGoogleSheet (GoogleSheetUrl c) w s = (Returns (Err e), s1) ->
      loadSigners c ref w s = (Returns (Err (Errorf_w "sheet: " e)), s1)) /\
  (forall e s1 s2,
      SignersPath c <> "" ->
      (GoogleSheetUrl c = "" /\ s1 = s) \/
      (GoogleSheetUrl c <> "" /\
       exists m, loadSignersFromGoogleSheet (GoogleSheetUrl c) w s = (Returns (Ok m), s1)) ->
      loadSignersGithub c ref w s1 = (Returns (Err e), s2) ->
      loadSigners c ref w s = (Returns (Err (Errorf_w "repo file: " e)), s2)) /\
  (forall e s',
      loadSigners c ref w s = (Returns (Err e), s') ->
      handlePullRequest c w s = (Returns (Some e), s') /\
      posted s' = posted s /\ files s' = files s).
Proof.
  intros Hf Hd ref. split; [|split].
  - intros e s1 Hu Hsheet. rewrite loadSigners_run.
    by rewrite decide_False, Hsheet by done.
  - intros e s1 s2 Hp Hstage Hrepo. rewrite loadSigners_run.
    destruct Hstage as [[Hu ->]|[Hu [m Hsheet]]].
    + by rewrite decide_True, decide_False, Hrepo by done.
    + by rewrite decide_False, Hsheet, decide_False, Hrepo by done.
  - intros e s' Hload. split.
    + rewrite (handlePullRequest_resolve c w s d ev Hf Hd), resolveCompliance_run.
      fold ref. by rewrite Hload.
    + by apply (loadSigners_posted c ref w s s' _ Hload).
Qed.

(** C4: a run of [handlePullRequest] that returns no error has decoded the
    event and loaded the signers, and after the signers are loaded it makes
    exactly the calls of the verdict: when the lowercased author is in the
    merged set, one commit status on the head revision with state success and
    no comment; otherwise one commit status with state failure followed by
    one comment whose body is the at-sign, the author, a space and the
    configured message.  Loading the signers posts nothing, so these are all
    the statuses and comments of the run. *)
Theorem successful_run_posts (c : cfg) (w : World) (s s' : State) :
  handlePullRequest c w s = (Returns None, s') ->
  exists d ev signers s1,
    files s !! EventPath c = Some d /\
    as_PullRequestEvent d = Ok ev /\
    let pr := GetPullRequest ev in
    let author := ToLower (User_Login pr) in
    let posts :=
      if decide (author ∈ signers)
      then [CreateStatus (RepoOwner c) (RepoName c) (Head_SHA pr) "success" CLA_signed
              "CLA check"]
      else [CreateStatus (RepoOwner c) (RepoName c) (Head_SHA pr) "failure"
              CLA_not_signed "CLA check";
            CreateComment (RepoOwner c) (RepoName c) (Number pr)
              ("@" ++ author ++ " " ++ CommentMsg c)] in
    loadSigners c (Base_Ref pr) w s = (Returns (Ok signers), s1) /\
    calls s' = calls s1 ++ posts /\
    posted s' = posted s ++ posts.
Proof.
  intros Hrun.
  destruct (files s !! EventPath c) as [d|] eqn:Hf; cycle 1.
  { revert Hrun. unfold handlePullRequest, parseEvent, os_ReadFile, mbind, Go_bind.
    rewrite Hf. discriminate. }
  destruct (as_PullRequestEvent d) as [ev|e] eqn:Hd; cycle 1.
  { revert Hrun. unfold handlePullRequest, parseEvent, os_ReadFile, mbind, Go_bind.
    rewrite Hf. unfold mret, Go_ret. rewrite Hd. discriminate. }
  rewrite (handlePullRequest_resolve c w s d ev Hf Hd), resolveCompliance_run in Hrun.
  destruct (loadSigners c (Base_Ref (GetPullRequest ev)) w s)
    as [[[signers|e]|p] s1] eqn:Hload; try discriminate.
  injection Hrun as <-.
  exists d, ev, signers, s1.
  split; [done|]. split; [done|]. cbv zeta.
  split; [done|]. split; [reflexivity|].
  rewrite posted_addCalls.
  destruct (loadSigners_posted _ _ _ _ _ _ Hload) as [-> _].
  f_equal. unfold verdict_calls. by destruct (decide _).
Qed.

(** C5: an issue-comment event whose author, lowercased, is in the
    ignore-list, or whose issue is not a pull request, or whose lowercased
    body contains neither trigger phrase, ends the handler with no error and
    the state as it was: no call is made, nothing is posted, no file is
    written. *)
Theorem guarded_comment_is_ignored (c : cfg) (w : World) (s : State)
    (d : Document) (ev : IssueCommentEvent) :
  files s !! EventPath c = Some d ->
  as_IssueCommentEvent d = Ok ev ->
  ToLower (Comment_User_Login ev) ∈ IgnoreAuthors c \/
  Issue_IsPullRequest ev = false \/
  (Contains (ToLower (Comment_Body ev)) "@cla-bot" = false /\
   Contains (ToLower (Comment_Body ev)) "cla-bot check" = false) ->
  handleIssueComment c w s = (Returns None, s).
Proof.
  intros Hf Hd Hguard.
  unfold handleIssueComment, parseEvent, os_ReadFile, mbind, Go_bind, mret, Go_ret.
  rewrite Hf, Hd.
  destruct (decide (ToLower (Comment_User_Login ev) ∈ IgnoreAuthors c)) as [|Hauthor];
    [reflexivity|].
  destruct (Issue_IsPullRequest ev); [|reflexivity]. simpl.
  destruct Hguard as [?|[?|[-> ->]]]; [done|done|reflexivity].
Qed.

Lemma isEmpty_false (t : string) : isEmpty t = false <-> t <> "".
Proof. destruct t; simpl; split; congruence. Qed.

Lemma fileLoop_spec (lines : list string) (set : gset string) (x : string) :
  x ∈ fileLoop lines set <->
  x ∈ set \/
  exists line, In line lines /\ TrimSpace line <> "" /\
               HasPrefix (TrimSpace line) "#" = false /\
               x = ToLower (TrimSpace line).
Proof.
  unfold fileLoop. revert set.
  induction lines as [|l ls IH]; intros set; simpl.
  - split; [by left|]. intros [H|(line & [] & _)]. exact H.
  - rewrite IH. clear IH.
    destruct (isEmpty (TrimSpace l)) eqn:He; simpl.
    { split.
      - intros [H|(line & Hin & Hacc)]; [by left|]. right. exists line. by split; [right|].
      - intros [H|(line & [<-|Hin] & Hne & Hacc)]; [by left| |].
        + destruct (TrimSpace l); [done|discriminate].
        + right. by exists line. }
    apply isEmpty_false in He.
    destruct (HasPrefix (TrimSpace l) "#") eqn:Hp; simpl.
    { split.
      - intros [H|(line & Hin & Hacc)]; [by left|]. right. exists line. by split; [right|].
      - intros [H|(line & [<-|Hin] & Hne & Hhash & Hx)]; [by left| |].
        + congruence.
        + right. by exists line. }
    rewrite elem_of_union, elem_of_singleton. split.
    + intros [[->|H]|(line & Hin & Hacc)].
      * right. exists l. by split; [left|].
      * by left.
      * right. exists line. by split; [right|].
    + intros [H|(line & [<-|Hin] & Hne & Hhash & Hx)].
      * left. by right.
      * left. by left.
      * right. by exists line.
Qed.

Lemma sheetLoop_spec (rows : list (list string)) (i : nat) (set signers : gset string)
    (x : string) :
  sheetLoop i rows set = Returns signers ->
  x ∈ signers <->
  x ∈ set \/
  exists j row field,
    (1 <= i + j)%nat /\ rows !! j = Some row /\ row !! 1%nat = Some field /\
    x = ToLower (TrimSpace field) /\ x <> "".
Proof.
  revert i set.
  induction rows as [|row rest IH]; intros i set; simpl.
  - intros [= <-]. split; [by left|].
    intros [H|(j & r & f & _ & Hj & _)]; [exact H|]. by rewrite lookup_nil in Hj.
  - assert (Hskip : forall set',
               (x ∈ set' <-> x ∈ set \/
                  (1 <= i)%nat /\ exists field, row !! 1%nat = Some field /\
                     x = ToLower (TrimSpace field) /\ x <> "") ->
               sheetLoop (S i) rest set' = Returns signers ->
               x ∈ signers <->
               x ∈ set \/
               exists j r field,
                 (1 <= i + j)%nat /\ (row :: rest) !! j = Some r /\
                 r !! 1%nat = Some field /\ x = ToLower (TrimSpace field) /\ x <> "").
    { intros set' Hset' Hrun. rewrite (IH _ _ Hrun), Hset'. split.
      - intros [[H|(Hi & f & Hf & Hx & Hne)]|(j & r & f & Hi & Hj & Hf & Hx & Hne)].
        + by left.
        + right. exists 0%nat, row, f. split_and!; [lia|done..].
        + right. exists (S j), r, f. split_and!; [lia|done..].
      - intros [H|(j & r & f & Hi & Hj & Hf & Hx & Hne)]; [by left; left|].
        destruct j as [|j]; simpl in Hj.
        + injection Hj as <-. left. right. split; [lia|]. by exists f.
        + right. exists j, r, f. split_and!; [lia|done..]. }
    destruct (i =? 0)%nat eqn:Hi.
    { apply Nat.eqb_eq in Hi. apply Hskip. split; [by left|].
      intros [H|[Hle _]]; [exact H|lia]. }
    apply Nat.eqb_neq in Hi.
    destruct (length row =? 0)%nat eqn:Hlen.
    { apply Nat.eqb_eq in Hlen. apply Hskip. split; [by left|].
      intros [H|(_ & f & Hf & _)]; [exact H|].
      destruct row; [by rewrite lookup_nil in Hf|discriminate]. }
    destruct (row !! 1%nat) as [field|] eqn:Hfield; [|discriminate].
    destruct (decide (ToLower (TrimSpace field) = "")) as [He|He].
    { apply Hskip. split; [by left|].
      intros [H|(_ & f & [= <-] & -> & Hne)]; [exact H|done]. }
    apply Hskip. rewrite elem_of_union, elem_of_singleton. split.
    + intros [->|H]; [|by left]. right. split; [lia|]. by exists field.
    + intros [H|(_ & f & [= <-] & -> & _)]; [by right|by left].
Qed.

Lemma sheet_stage_members (c : cfg) (w : World) (s s1 : State) (m : gset string)
    (x : string) :
  (if decide (GoogleSheetUrl c = "") then (Returns (Ok ∅), s)
   else loadSignersFromGoogleSheet (GoogleSheetUrl c) w s) = (Returns (Ok m), s1) ->
  x ∈ m <-> exists e, sheet_entry c w e /\ x = ToLower (TrimSpace e) /\ x <> "".
Proof.
  unfold sheet_entry.
  destruct (decide (GoogleSheetUrl c = "")) as [Hu|Hu].
  - intros [= <- _]. split; [set_solver|]. by intros (e & [? _] & _).
  - rewrite (loadSignersFromGoogleSheet_run _ _ _ Hu).
    destruct (http_Do w (GoogleSheetUrl c)) as [[resp|err]|] eqn:Hresp; try discriminate.
    destruct (decide (StatusCode resp = 200%Z)) as [Hstatus|]; [|discriminate].
    destruct (Csv.ReadAll (Body resp)) as [rows|err] eqn:Hread; [|discriminate].
    destruct (sheetLoop 0 rows ∅) as [m'|p] eqn:Hloop; [|discriminate].
    intros [= <- _]. rewrite (sheetLoop_spec _ _ _ _ _ Hloop). split.
    + intros [H|(j & row & field & Hj & Hrow & Hfield & Hx & Hne)]; [set_solver|].
      exists field. split_and!; [done| |done..]. by exists resp, rows, j, row.
    + intros (e & (_ & resp' & rows' & j & row & Hresp' & _ & Hread' & Hj & Hrow & He)
                & Hx & Hne).
      injection Hresp' as <-. rewrite Hread in Hread'. injection Hread' as <-.
      right. by exists j, row, e.
Qed.

Lemma file_stage_members (c : cfg) (ref : string) (w : World) (s s1 : State)
    (m : gset string) (x : string) :
  (if decide (SignersPath c = "") then (Returns (Ok ∅), s)
   else loadSignersGithub c ref w s) = (Returns (Ok m), s1) ->
  x ∈ m <-> exists e, file_entry c w ref e /\ x = ToLower (TrimSpace e).
Proof.
  unfold file_entry.
  destruct (decide (SignersPath c = "")) as [Hp|Hp].
  - intros [= <- _]. split; [set_solver|]. by intros (e & [? _] & _).
  - rewrite loadSignersGithub_run.
    destruct (Repositories_GetContents w _ _ _ _) as [[file|]|err] eqn:Hfile;
      try discriminate.
    destruct (GetContent file) as [content|err] eqn:Hcontent; [|discriminate].
    intros [= <- _]. rewrite fileLoop_spec. split.
    + intros [H|(line & Hline & Hne & Hhash & Hx)]; [set_solver|].
      exists line. split; [|done]. split; [done|]. by exists file, content.
    + intros (e & (_ & file' & content' & [= <-] & Hcontent' & He & Hne & Hhash) & Hx).
      rewrite Hcontent in Hcontent'. injection Hcontent' as <-.
      right. by exists e.
Qed.

(** The set that [loadSigners] returns holds exactly the lowercased, trimmed
    entries of the configured sources (of the sheet, those that are not
    empty). *)
Lemma loadSigners_members (c : cfg) (ref : string) (w : World) (s s1 : State)
    (signers : gset string) (x : string) :
  loadSigners c ref w s = (Returns (Ok signers), s1) ->
  x ∈ signers <->
  (exists e, sheet_entry c w e /\ x = ToLower (TrimSpace e) /\ x <> "") \/
  (exists e, file_entry c w ref e /\ x = ToLower (TrimSpace e)).
Proof.
  rewrite loadSigners_run.
  destruct (if decide (GoogleSheetUrl c = "") then _ else _)
    as [[[m1|e1]|p1] s2] eqn:Hsheet; try discriminate.
  destruct (if decide (SignersPath c = "") then _ else _)
    as [[[m2|e2]|p2] s3] eqn:Hfile; try discriminate.
  intros [= <- _].
  rewrite elem_of_union.
  rewrite (sheet_stage_members c w s s2 m1 x Hsheet).
  by rewrite (file_stage_members c ref w s2 s3 m2 x Hfile).
Qed.


Lemma resolveCompliance_appends (c : cfg) (pr : PullRequest) (w : World) :
  appends any_calls (resolveCompliance c pr) w.
Proof.
  destruct (loadSigners_appends c (Base_Ref pr) w) as (o & delta & _ & Hload).
  destruct o as [[signers|e]|p].
  - exists (Returns None), (delta ++ verdict_calls c pr signers). split; [exact I|].
    intros s. by rewrite resolveCompliance_run, Hload, addCalls_app.
  - exists (Returns (Some e)), delta. split; [exact I|].
    intros s. by rewrite resolveCompliance_run, Hload.
  - exists (Panics p), delta. split; [exact I|].
    intros s. by rewrite resolveCompliance_run, Hload.
Qed.

(** [resolveCompliance] reads the configuration only through the repository
    coordinates, the two signer locations and the comment message. *)
Lemma resolveCompliance_cfg (c c' : cfg) (pr : PullRequest) :
  RepoOwner c = RepoOwner c' ->
  RepoName c = RepoName c' ->
  SignersPath c = SignersPath c' ->
  GoogleSheetUrl c = GoogleSheetUrl c' ->
  CommentMsg c = CommentMsg c' ->
  resolveCompliance c pr = resolveCompliance c' pr.
Proof.
  destruct c, c'; simpl. by intros -> -> -> -> ->.
Qed.

(** C6, as the code has it: the issue-comment handler hands the fetched pull
    request to [handlePullRequest] through the file [tmpFile], and discards
    the error of the write.  For an issue-comment event that passes the
    three guards, when the pull request is fetched and the write of the
    temporary file succeeds, the handler fetches the pull request and then
    does what [handlePullRequest] does on a pull-request event for that pull
    request under the same repository, signer locations and message: the
    same result and the same calls (the same author, the same base branch
    for the signer file, the same status and comment). *)
Theorem issue_comment_as_pull_request (c cPR : cfg) (w : World) (s sPR : State)
    (d dPR : Document) (ev : IssueCommentEvent) (pr : PullRequest) :
  files s !! EventPath c = Some d ->
  as_IssueCommentEvent d = Ok ev ->
  ToLower (Comment_User_Login ev) ∉ IgnoreAuthors c ->
  Issue_IsPullRequest ev = true ->
  Contains (ToLower (Comment_Body ev)) "@cla-bot" = true \/
  Contains (ToLower (Comment_Body ev)) "cla-bot check" = true ->
  PullRequests_Get w (RepoOwner c) (RepoName c) (Issue_Number ev) = Ok pr ->
  can_write w tmpFile = true ->
  RepoOwner cPR = RepoOwner c /\ RepoName cPR = RepoName c /\
  SignersPath cPR = SignersPath c /\ GoogleSheetUrl cPR = GoogleSheetUrl c /\
  CommentMsg cPR = CommentMsg c ->
  files sPR !! EventPath cPR = Some dPR ->
  as_PullRequestEvent dPR = Ok {| GetPullRequest := pr |} ->
  exists (o : outcome (option error)) (delta : list Call),
    handleIssueComment c w s =
      (o, {| files := <[tmpFile := json_Marshal {| GetPullRequest := pr |}]> (files s);
             calls := calls s
                      ++ [GetPull (RepoOwner c) (RepoName c) (Issue_Number ev)]
                      ++ delta |}) /\
    handlePullRequest cPR w sPR = (o, addCalls sPR delta).
Proof.
  intros Hf Hd Hauthor Hpr Htrigger Hpull Hwrite (Ho & Hn & Hp & Hu & Hm) HfPR HdPR.
  destruct (resolveCompliance_appends cPR pr w) as (o & delta & _ & Hrun).
  exists o, delta. split.
  - unfold handleIssueComment, parseEvent, os_ReadFile.
    unfold mbind, Go_bind, mret, Go_ret, call, ask, os_WriteFile.
    rewrite Hf, Hd, decide_False, Hpr by done. simpl.
    assert (negb (Contains (ToLower (Comment_Body ev)) "@cla-bot")
            && negb (Contains (ToLower (Comment_Body ev)) "cla-bot check") = false)
      as -> by (destruct Htrigger as [-> | ->]; [reflexivity | apply andb_false_r]).
    cbv beta. rewrite Hpull. cbv beta. rewrite Hwrite.
    match goal with
    | |- handlePullRequest ?sub w ?s1 = _ =>
        rewrite (handlePullRequest_resolve sub w s1
                   (json_Marshal {| GetPullRequest := pr |})
                   {| GetPullRequest := pr |}
                   ltac:(apply lookup_insert_eq) eq_refl);
        cbn [GetPullRequest];
        rewrite (resolveCompliance_cfg sub cPR pr) by (simpl; congruence)
    end.
    simpl. rewrite Hrun. unfold addCalls. simpl. by rewrite <- app_assoc.
  - by rewrite (handlePullRequest_resolve cPR w sPR dPR _ HfPR HdPR).
Qed.

(** * Further properties of the program *)

(** ** Normal forms of identifiers *)

Lemma toLower_idemp (c : ascii) : toLower (toLower c) = toLower c.
Proof. destruct c as [[] [] [] [] [] [] [] []]; reflexivity. Qed.

Lemma isSpace_toLower (c : ascii) : isSpace (toLower c) = isSpace c.
Proof. destruct c as [[] [] [] [] [] [] [] []]; reflexivity. Qed.

Lemma hash_toLower (c : ascii) : Ascii.eqb "#" (toLower c) = Ascii.eqb "#" c.
Proof. destruct c as [[] [] [] [] [] [] [] []]; reflexivity. Qed.

Lemma ToLower_idemp (s : string) : ToLowerASCII (ToLowerASCII s) = ToLowerASCII s.
Proof. induction s as [|c r IH]; simpl; [reflexivity|]. by rewrite toLower_idemp, IH. Qed.

Lemma ToLower_length (s : string) : String.length (ToLowerASCII s) = String.length s.
Proof. induction s as [|c r IH]; simpl; [reflexivity|]. by rewrite IH. Qed.

Lemma ToLower_empty (s : string) : ToLowerASCII s = "" <-> s = "".
Proof. destruct s; simpl; split; congruence. Qed.

Lemma isEmpty_ToLower (s : string) : isEmpty (ToLowerASCII s) = isEmpty s.
Proof. by destruct s. Qed.

Lemma HasPrefix_hash_ToLower (s : string) :
  HasPrefix (ToLowerASCII s) "#" = HasPrefix s "#".
Proof.
  destruct s as [|c r]; [reflexivity|].
  cbn [ToLowerASCII HasPrefix]. rewrite !HasPrefix_empty. by rewrite hash_toLower.
Qed.

Lemma trimLeftSpace_ToLower (s : string) :
  trimLeftSpace (ToLowerASCII s) = ToLowerASCII (trimLeftSpace s).
Proof.
  induction s as [|c r IH]; [reflexivity|].
  cbn [ToLowerASCII trimLeftSpace]. rewrite isSpace_toLower.
  by destruct (isSpace c).
Qed.

Lemma trimRightSpace_ToLower (s : string) :
  trimRightSpace (ToLowerASCII s) = ToLowerASCII (trimRightSpace s).
Proof.
  induction s as [|c r IH]; [reflexivity|].
  cbn [ToLowerASCII trimRightSpace]. rewrite IH, isSpace_toLower, isEmpty_ToLower.
  by destruct (isSpace c && isEmpty (trimRightSpace r)).
Qed.

Lemma TrimSpace_ToLower (s : string) : TrimSpaceASCII (ToLowerASCII s) = ToLowerASCII (TrimSpaceASCII s).
Proof. unfold TrimSpaceASCII. by rewrite trimLeftSpace_ToLower, trimRightSpace_ToLower. Qed.

Lemma trimRightSpace_idemp (s : string) :
  trimRightSpace (trimRightSpace s) = trimRightSpace s.
Proof.
  induction s as [|c r IH]; [reflexivity|].
  cbn [trimRightSpace].
  destruct (isSpace c && isEmpty (trimRightSpace r)) eqn:Hc; [reflexivity|].
  cbn [trimRightSpace]. by rewrite IH, Hc.
Qed.

Lemma trimLeftSpace_head (s : string) :
  trimLeftSpace s = "" \/
  exists c r, trimLeftSpace s = String c r /\ isSpace c = false.
Proof.
  induction s as [|c r IH]; [by left|].
  cbn [trimLeftSpace]. destruct (isSpace c) eqn:Hc; [exact IH|].
  right. by exists c, r.
Qed.

Lemma TrimSpace_idemp (s : string) : TrimSpaceASCII (TrimSpaceASCII s) = TrimSpaceASCII s.
Proof.
  unfold TrimSpaceASCII.
  destruct (trimLeftSpace_head s) as [->|(c & r & -> & Hc)]; [reflexivity|].
  cbn [trimRightSpace]. rewrite Hc. cbn [andb trimLeftSpace]. rewrite Hc.
  cbn [trimRightSpace]. rewrite Hc. cbn [andb]. by rewrite trimRightSpace_idemp.
Qed.

Lemma trimLeftSpace_length (s : string) :
  (String.length (trimLeftSpace s) <= String.length s)%nat /\
  (String.length (trimLeftSpace s) = String.length s -> trimLeftSpace s = s).
Proof.
  induction s as [|c r [IHle IHeq]]; [done|].
  cbn [trimLeftSpace]. destruct (isSpace c); [|done].
  simpl. split; lia.
Qed.

Lemma trimRightSpace_length (s : string) :
  (String.length (trimRightSpace s) <= String.length s)%nat /\
  (String.length (trimRightSpace s) = String.length s -> trimRightSpace s = s).
Proof.
  induction s as [|c r [IHle IHeq]]; [done|].
  cbn [trimRightSpace].
  destruct (isSpace c && isEmpty (trimRightSpace r)); simpl.
  - split; [lia|discriminate].
  - split; [lia|]. intros [= Hlen]. by rewrite IHeq.
Qed.

Lemma TrimSpace_length_eq (s : string) :
  String.length (TrimSpaceASCII s) = String.length s -> TrimSpaceASCII s = s.
Proof.
  unfold TrimSpaceASCII. intros Hlen.
  destruct (trimLeftSpace_length s) as [Hl Hleq].
  destruct (trimRightSpace_length (trimLeftSpace s)) as [Hr Hreq].
  rewrite Hreq by lia. apply Hleq. rewrite Hreq in Hlen by lia. exact Hlen.
Qed.

(** The lowercased, trimmed form of a string is a fixed point of both
    operations. *)
Lemma normal_form (s : string) :
  ToLowerASCII (ToLowerASCII (TrimSpaceASCII s)) = ToLowerASCII (TrimSpaceASCII s) /\
  TrimSpaceASCII (ToLowerASCII (TrimSpaceASCII s)) = ToLowerASCII (TrimSpaceASCII s).
Proof.
  split; [apply ToLower_idemp|].
  by rewrite TrimSpace_ToLower, TrimSpace_idemp.
Qed.

(** A handle that is in normal form up to letter case has no white space
    around it. *)
Lemma TrimSpace_of_lowercase (s : string) :
  TrimSpaceASCII (ToLowerASCII s) = ToLowerASCII s -> TrimSpaceASCII s = s.
Proof.
  rewrite TrimSpace_ToLower. intros H.
  apply TrimSpace_length_eq.
  by rewrite <- (ToLower_length (TrimSpaceASCII s)), H, ToLower_length.
Qed.

(** ** ASCII sources give ASCII entries *)

Lemma isASCII_app (a b : string) :
  isASCII (a ++ b) = isASCII a && isASCII b.
Proof.
  induction a as [|c r IH]; [reflexivity|].
  change (isASCII (String c (r ++ b)%string) = isASCII (String c r) && isASCII b).
  cbn [isASCII]. by rewrite IH, andb_assoc.
Qed.

Lemma splitFrom_ASCII (sep s : string) (k : nat) :
  isASCII s = true -> forallb isASCII (splitFrom sep s k) = true.
Proof.
  revert k. induction s as [|c r IH]; intros k; [reflexivity|].
  cbn [isASCII]. intros [Hc Hr]%andb_true_iff.
  cbn [splitFrom]. destruct k as [|k]; [|by apply IH].
  destruct (HasPrefix (String c r) sep).
  - cbn [forallb isASCII]. by apply IH.
  - specialize (IH 0%nat Hr).
    destruct (splitFrom sep r 0) as [|piece rest]; cbn [forallb isASCII] in *.
    + by rewrite Hc.
    + apply andb_true_iff in IH as [Hpiece Hrest]. by rewrite Hc, Hpiece, Hrest.
Qed.

Lemma Split_ASCII (s sep e : string) :
  isASCII s = true -> In e (Split s sep) -> isASCII e = true.
Proof.
  intros Hs He. pose proof (splitFrom_ASCII sep s 0 Hs) as Hall.
  rewrite forallb_forall in Hall. by apply Hall.
Qed.

Lemma normalizeNL_ASCII (s : string) :
  isASCII s = true -> isASCII (Csv.normalizeNL s) = true.
Proof.
  assert (Hboth : (isASCII s = true -> isASCII (Csv.normalizeNL s) = true) /\
                  (forall c, isASCII (String c s) = true ->
                             isASCII (Csv.normalizeNL (String c s)) = true)).
  { induction s as [|d r [IH0 IH1]].
    - split; [done|]. intros c. cbn [Csv.normalizeNL].
      by destruct (Ascii.eqb c Csv.cr).
    - split; [by apply IH1|]. intros c.
      cbn [isASCII]. intros [Hc [Hd Hr]%andb_true_iff]%andb_true_iff.
      assert (Hdr : isASCII (Csv.normalizeNL (String d r)) = true).
      { apply IH1. cbn [isASCII]. by rewrite Hd, Hr. }
      change (isASCII (if Ascii.eqb c Csv.cr
                       then if Ascii.eqb d Csv.lf
                            then String Csv.lf (Csv.normalizeNL r)
                            else String c (Csv.normalizeNL (String d r))
                       else String c (Csv.normalizeNL (String d r))) = true).
      destruct (Ascii.eqb c Csv.cr); [destruct (Ascii.eqb d Csv.lf)|];
        cbn [isASCII]; rewrite ?Hc, ?Hdr, ?IH0 by done; reflexivity. }
  apply Hboth.
Qed.

Lemma forallb_snoc {A : Type} (P : A -> bool) (l : list A) (x : A) :
  forallb P l = true -> P x = true -> forallb P (l ++ [x]) = true.
Proof. intros Hl Hx. rewrite forallb_app. cbn [forallb]. by rewrite Hl, Hx. Qed.

Lemma isASCII_snoc (fld : string) (c : ascii) :
  isASCII fld = true -> isASCIIbyte c = true -> isASCII (Csv.snoc fld c) = true.
Proof.
  intros Hfld Hc. unfold Csv.snoc. rewrite isASCII_app. cbn [isASCII].
  by rewrite Hfld, Hc.
Qed.

Lemma next_ASCII (m : Csv.mode) (c : ascii) (fld : string) (rec : list string) :
  isASCIIbyte c = true -> isASCII fld = true -> forallb isASCII rec = true ->
  match Csv.next m c fld rec with
  | Csv.Continue _ fld' rec' => isASCII fld' = true /\ forallb isASCII rec' = true
  | Csv.EndRecord rec' => forallb isASCII rec' = true
  | Csv.Fail _ => True
  end.
Proof.
  intros Hc Hfld Hrec.
  pose proof (forallb_snoc isASCII rec fld Hrec Hfld) as Hsnoc.
  pose proof (isASCII_snoc fld c Hfld Hc) as Hfldc.
  pose proof (isASCII_snoc fld Csv.quote Hfld eq_refl) as Hfldq.
  unfold Csv.next, Csv.atFieldStart, Csv.inUnquoted.
  destruct m; repeat case_match; simplify_eq; done.
Qed.

Lemma endRecord_ASCII (rec : list string) (acc acc' : list (list string)) :
  forallb isASCII rec = true -> forallb (forallb isASCII) acc = true ->
  Csv.endRecord rec acc = Ok acc' -> forallb (forallb isASCII) acc' = true.
Proof.
  intros Hrec Hacc. unfold Csv.endRecord.
  destruct acc as [|first rest].
  - intros [= <-]. cbn [forallb]. by rewrite Hrec.
  - destruct (length rec =? length first)%nat; [|discriminate].
    intros [= <-]. by apply (forallb_snoc _ (first :: rest) rec).
Qed.

Lemma scan_ASCII (s : string) (m : Csv.mode) (fld : string) (rec : list string)
    (acc rows : list (list string)) :
  isASCII s = true -> isASCII fld = true -> forallb isASCII rec = true ->
  forallb (forallb isASCII) acc = true ->
  Csv.scan s m fld rec acc = Ok rows -> forallb (forallb isASCII) rows = true.
Proof.
  revert m fld rec acc.
  induction s as [|c r IH]; intros m fld rec acc Hs Hfld Hrec Hacc; cbn [Csv.scan].
  - destruct m; try discriminate;
      try (apply endRecord_ASCII; [by apply forallb_snoc|done]).
    by intros [= <-].
  - cbn [isASCII] in Hs. apply andb_true_iff in Hs as [Hc Hr].
    pose proof (next_ASCII m c fld rec Hc Hfld Hrec) as Hnext.
    destruct (Csv.next m c fld rec) as [m' fld' rec'|rec'|e]; [| |discriminate].
    + destruct Hnext as [Hfld' Hrec']. by apply IH.
    + destruct (Csv.endRecord rec' acc) as [acc'|e] eqn:Hend; [|discriminate].
      apply IH; try done. by apply (endRecord_ASCII rec' acc).
Qed.

(** The fields of the records that [ReadAll] decodes from an ASCII document
    are ASCII. *)
Lemma ReadAll_ASCII (body : string) (rows : list (list string)) :
  isASCII body = true -> Csv.ReadAll body = Ok rows ->
  forallb (forallb isASCII) rows = true.
Proof.
  intros Hbody. unfold Csv.ReadAll.
  apply scan_ASCII; try done. by apply normalizeNL_ASCII.
Qed.

Lemma sheet_entry_ASCII (c : cfg) (ref : string) (w : World) (e : string) :
  ascii_sources c ref w -> sheet_entry c w e -> isASCII e = true.
Proof.
  intros [Hsheet _] (_ & resp & rows & j & row & Hresp & _ & Hread & _ & Hrow & He).
  pose proof (ReadAll_ASCII _ _ (Hsheet resp Hresp) Hread) as Hrows.
  apply (forallb_lookup isASCII row 1 e); [|exact He].
  by apply (forallb_lookup (forallb isASCII) rows j row).
Qed.

Lemma file_entry_ASCII (c : cfg) (ref : string) (w : World) (e : string) :
  ascii_sources c ref w -> file_entry c w ref e -> isASCII e = true.
Proof.
  intros [_ Hfile] (_ & file & content & Hfetch & Hcontent & He & _).
  by apply (Split_ASCII content LF e (Hfile file content Hfetch Hcontent)).
Qed.

(** ** Runs on ASCII text are those of the ASCII operations *)

Lemma loadSignersFromGoogleSheet_ASCII (url : string) (w : World) (s : State) :
  (forall resp, http_Do w url = Some (Ok resp) -> isASCII (Body resp) = true) ->
  loadSignersFromGoogleSheet url w s = @loadSignersFromGoogleSheet ascii_strings url w s.
Proof.
  intros Hascii. unfold loadSignersFromGoogleSheet.
  destruct (decide (url = "")); [reflexivity|].
  unfold mbind, Go_bind, mret, Go_ret, call, ask, lift.
  destruct (http_Do w url) as [[resp|e]|] eqn:Hresp; [|reflexivity..].
  destruct (decide (StatusCode resp = 200%Z)); [|reflexivity].
  destruct (Csv.ReadAll (Body resp)) as [rows|err] eqn:Hread; [|reflexivity].
  by rewrite (sheetLoop_ASCII rows 0 ∅ (ReadAll_ASCII _ _ (Hascii resp eq_refl) Hread)).
Qed.

Lemma loadSignersGithub_ASCII (c : cfg) (ref : string) (w : World) (s : State) :
  (forall file content,
      Repositories_GetContents w (RepoOwner c) (RepoName c) (SignersPath c) ref
        = Ok (Some file) ->
      GetContent file = Ok content -> isASCII content = true) ->
  loadSignersGithub c ref w s = @loadSignersGithub ascii_strings c ref w s.
Proof.
  intros Hascii. unfold loadSignersGithub, mbind, Go_bind, mret, Go_ret, call, ask, lift.
  destruct (Repositories_GetContents w _ _ _ _) as [[file|]|e] eqn:Hfile; [|reflexivity..].
  destruct (GetContent file) as [content|e] eqn:Hcontent; [|reflexivity].
  by rewrite (fileLoop_ASCII (Split content LF) ∅
                (splitFrom_ASCII LF content 0 (Hascii file content eq_refl Hcontent))).
Qed.

Lemma loadSigners_ASCII (c : cfg) (ref : string) (w : World) (s : State) :
  ascii_sources c ref w ->
  loadSigners c ref w s = @loadSigners ascii_strings c ref w s.
Proof.
  intros [Hsheet Hfile]. unfold loadSigners, mbind, Go_bind.
  destruct (decide (GoogleSheetUrl c = "")).
  - cbn [mret Go_ret]. destruct (decide (SignersPath c = "")); [reflexivity|].
    by rewrite (loadSignersGithub_ASCII c ref w _ Hfile).
  - rewrite (loadSignersFromGoogleSheet_ASCII _ w s Hsheet).
    destruct (@loadSignersFromGoogleSheet ascii_strings (GoogleSheetUrl c) w s)
      as [[[m|e]|p] s1]; try reflexivity.
    cbn [mret Go_ret]. destruct (decide (SignersPath c = "")); [reflexivity|].
    by rewrite (loadSignersGithub_ASCII c ref w _ Hfile).
Qed.

(** A run of [handlePullRequest] on ASCII sources and an ASCII author
    handle is the same for every pair of operations of [GoStrings]: it is
    the run of the ASCII operations. *)
Lemma handlePullRequest_ASCII (c : cfg) (w : World) (s : State)
    (d : Document) (ev : PullRequestEvent) :
  files s !! EventPath c = Some d ->
  as_PullRequestEvent d = Ok ev ->
  ascii_sources c (Base_Ref (GetPullRequest ev)) w ->
  isASCII (User_Login (GetPullRequest ev)) = true ->
  handlePullRequest c w s = @handlePullRequest ascii_strings c w s.
Proof.
  intros Hf Hd Hascii Hlogin.
  unfold handlePullRequest, parseEvent, os_ReadFile.
  unfold mbind, Go_bind, mret, Go_ret. rewrite Hf, Hd.
  rewrite (loadSigners_ASCII c _ w s Hascii), (ToLower_ASCII _ Hlogin).
  reflexivity.
Qed.

(** With ASCII sources, every identifier of the set that [loadSigners]
    returns is ASCII, is not empty, and is a fixed point of the two ASCII
    operations. *)
Lemma loadSigners_normal (c : cfg) (ref : string) (w : World) (s s' : State)
    (signers : gset string) (x : string) :
  ascii_sources c ref w ->
  loadSigners c ref w s = (Returns (Ok signers), s') ->
  x ∈ signers ->
  x <> "" /\ isASCII x = true /\ ToLowerASCII x = x /\ TrimSpaceASCII x = x.
Proof.
  intros Hascii Hload.
  rewrite (loadSigners_members c ref w s s' signers x Hload).
  assert (Hform : forall e, isASCII e = true -> x = ToLower (TrimSpace e) -> x <> "" ->
                            x <> "" /\ isASCII x = true /\
                            ToLowerASCII x = x /\ TrimSpaceASCII x = x).
  { intros e He Hx Hne. rewrite (normalize_ASCII e He) in Hx. subst x.
    destruct (normal_form e) as [Hlow Htrim].
    split_and!; [done| |done..].
    by apply isASCII_ToLowerASCII, isASCII_TrimSpaceASCII. }
  intros [(e & Hentry & Hx & Hne)|(e & Hentry & Hx)].
  - apply (Hform e); [|done..]. by apply (sheet_entry_ASCII c ref w).
  - pose proof (file_entry_ASCII c ref w e Hascii Hentry) as He.
    apply (Hform e He Hx).
    destruct Hentry as (_ & _ & _ & _ & _ & _ & Hne & _).
    rewrite (TrimSpace_ASCII e He) in Hne.
    rewrite Hx, (normalize_ASCII e He). by rewrite ToLower_empty.
Qed.

(** X1: with signer sources that hold ASCII text (the document of the
    sheet and the content of the signer file), every identifier of the set
    that [loadSigners] returns is in normal form: it is not empty,
    lowercasing leaves it as it is, and so does trimming. *)
Theorem signers_are_normalized (c : cfg) (ref : string) (w : World) (s s' : State)
    (signers : gset string) (x : string) :
  ascii_sources c ref w ->
  loadSigners c ref w s = (Returns (Ok signers), s') ->
  x ∈ signers ->
  x <> "" /\ ToLower x = x /\ TrimSpace x = x.
Proof.
  intros Hascii Hload Hx.
  destruct (loadSigners_normal c ref w s s' signers x Hascii Hload Hx)
    as (Hne & Hasc & Hlow & Htrim).
  split; [done|]. by rewrite (ToLower_ASCII x Hasc), (TrimSpace_ASCII x Hasc).
Qed.

(** X2: with signer sources that hold ASCII text, an ASCII author handle
    that is empty, or that has white space around it, is never found:
    whatever the signer sources hold, a run that loads them reports failure
    for it. *)
Theorem unnormalized_author_is_never_found (c : cfg) (w : World) (s s1 : State)
    (d : Document) (ev : PullRequestEvent) (signers : gset string) :
  files s !! EventPath c = Some d ->
  as_PullRequestEvent d = Ok ev ->
  ascii_sources c (Base_Ref (GetPullRequest ev)) w ->
  isASCII (User_Login (GetPullRequest ev)) = true ->
  loadSigners c (Base_Ref (GetPullRequest ev)) w s = (Returns (Ok signers), s1) ->
  User_Login (GetPullRequest ev) = "" \/
  TrimSpace (User_Login (GetPullRequest ev)) <> User_Login (GetPullRequest ev) ->
  handlePullRequest c w s =
    (Returns None,
     addCalls s1
       [CreateStatus (RepoOwner c) (RepoName c) (Head_SHA (GetPullRequest ev)) "failure"
          CLA_not_signed "CLA check";
        CreateComment (RepoOwner c) (RepoName c) (Number (GetPullRequest ev))
          ("@" ++ ToLower (User_Login (GetPullRequest ev)) ++ " " ++ CommentMsg c)]).
Proof.
  intros Hf Hd Hascii Hlogin Hload Hbad.
  rewrite (handlePullRequest_resolve c w s d ev Hf Hd), resolveCompliance_run, Hload.
  unfold verdict_calls. rewrite decide_False; [reflexivity|].
  intros Hin.
  destruct (loadSigners_normal _ _ _ _ _ _ _ Hascii Hload Hin) as (Hne & _ & _ & Htrim).
  rewrite (ToLower_ASCII _ Hlogin) in Hne, Htrim.
  destruct Hbad as [Hempty|Hspace].
  - apply Hne. by rewrite Hempty.
  - apply Hspace. rewrite (TrimSpace_ASCII _ Hlogin). by apply TrimSpace_of_lowercase.
Qed.

Lemma loadSignersGithub_state (c : cfg) (ref : string) (w : World) (s : State) :
  snd (loadSignersGithub c ref w s)
  = addCalls s [GetContents (RepoOwner c) (RepoName c) (SignersPath c) ref].
Proof. by rewrite loadSignersGithub_run. Qed.

Lemma file_stage_state (c : cfg) (ref : string) (w : World) (s : State)
    (m1 : gset string) :
  snd (match (if decide (SignersPath c = "") then (Returns (Ok ∅), s)
              else loadSignersGithub c ref w s) with
       | (Panics p, s2) => (Panics p, s2)
       | (Returns (Err e), s2) => (Returns (Err (Errorf_w "repo file: " e)), s2)
       | (Returns (Ok m2), s2) => (Returns (Ok (m1 ∪ m2)), s2)
       end)
  = addCalls s (if decide (SignersPath c = "") then []
                else [GetContents (RepoOwner c) (RepoName c) (SignersPath c) ref]).
Proof.
  destruct (decide (SignersPath c = "")) as [Hp|Hp].
  - by rewrite addCalls_nil.
  - rewrite <- (loadSignersGithub_state c ref w s).
    by destruct (loadSignersGithub c ref w s) as [[[m2|e2]|p2] s2].
Qed.

(** X3: the calls of [loadSigners].  It writes no file and makes at most two
    calls, in this order: the GET of the sheet when the sheet is configured
    and its URL can be parsed (with a URL that cannot be parsed the reader
    panics before any request is sent), and the fetch of the signer file
    when the file is configured and the sheet stage passed (the sheet is not
    configured, or its reader returned a set); after a sheet that failed or
    panicked the signer file is not fetched. *)
Theorem loadSigners_calls (c : cfg) (ref : string) (w : World) (s : State) :
  let sheet_passed :=
    if decide (GoogleSheetUrl c = "") then true
    else match fst (loadSignersFromGoogleSheet (GoogleSheetUrl c) w s) with
         | Returns (Ok _) => true
         | _ => false
         end in
  files (snd (loadSigners c ref w s)) = files s /\
  calls (snd (loadSigners c ref w s)) =
    calls s
    ++ (if decide (GoogleSheetUrl c = "") then []
        else match http_Do w (GoogleSheetUrl c) with
             | None => []
             | Some _ => [HttpGet (GoogleSheetUrl c)]
             end)
    ++ (if decide (SignersPath c = "") then []
        else if sheet_passed
             then [GetContents (RepoOwner c) (RepoName c) (SignersPath c) ref]
             else []).
Proof.
  cbv zeta. rewrite loadSigners_run.
  destruct (decide (GoogleSheetUrl c = "")) as [Hu|Hu].
  - rewrite file_stage_state. by destruct (decide (SignersPath c = "")).
  - rewrite (loadSignersFromGoogleSheet_run _ _ _ Hu).
    destruct (http_Do w (GoogleSheetUrl c)) as [[resp|e]|]; cbn [fst];
      [|by destruct (decide _)|by destruct (decide _); rewrite app_nil_r].
    destruct (decide (StatusCode resp = 200%Z)); [|by destruct (decide _)].
    destruct (Csv.ReadAll (Body resp)) as [rows|err]; [|by destruct (decide _)].
    destruct (sheetLoop 0 rows ∅) as [m|p]; [|by destruct (decide _)].
    rewrite file_stage_state, addCalls_app. split; reflexivity.
Qed.

(** ** The records of the reader and the loop over them *)

Lemma next_EndRecord (m : Csv.mode) (c : ascii) (fld : string) (rec rec' : list string) :
  Csv.next m c fld rec = Csv.EndRecord rec' -> rec' = rec ++ [fld].
Proof.
  unfold Csv.next, Csv.atFieldStart, Csv.inUnquoted.
  destruct m; repeat case_match; congruence.
Qed.

Lemma endRecord_uniform (fld : string) (rec : list string)
    (acc acc' : list (list string)) :
  acc = [] \/ (exists n, (1 <= n)%nat /\ uniform n acc) ->
  Csv.endRecord (rec ++ [fld]) acc = Ok acc' ->
  exists n, (1 <= n)%nat /\ uniform n acc'.
Proof.
  unfold Csv.endRecord, uniform. intros Hacc.
  destruct acc as [|first rest].
  - intros [= <-]. exists (length (rec ++ [fld])). split.
    + rewrite length_app. simpl. lia.
    + by constructor.
  - destruct Hacc as [|(n & Hn & Hall)]; [done|].
    destruct (length (rec ++ [fld]) =? length first)%nat eqn:Hlen; [|discriminate].
    apply Nat.eqb_eq in Hlen. intros [= <-]. exists n. split; [exact Hn|].
    apply (Forall_app_2 _ (first :: rest) [rec ++ [fld]]); [exact Hall|].
    constructor; [|constructor]. rewrite Hlen. by inversion Hall.
Qed.

Lemma scan_uniform (s : string) (m : Csv.mode) (fld : string) (rec : list string)
    (acc rows : list (list string)) :
  acc = [] \/ (exists n, (1 <= n)%nat /\ uniform n acc) ->
  Csv.scan s m fld rec acc = Ok rows ->
  rows = [] \/ (exists n, (1 <= n)%nat /\ uniform n rows).
Proof.
  revert m fld rec acc.
  induction s as [|c r IH]; intros m fld rec acc Hacc; cbn [Csv.scan].
  - destruct m; try discriminate;
      try (intros Hend; right; by apply (endRecord_uniform fld rec acc)).
    by intros [= <-].
  - destruct (Csv.next m c fld rec) as [m' fld' rec'|rec'|e] eqn:Hnext;
      [apply IH; exact Hacc| |discriminate].
    apply next_EndRecord in Hnext. subst rec'.
    destruct (Csv.endRecord (rec ++ [fld]) acc) as [acc'|e] eqn:Hend; [|discriminate].
    apply IH. right. by apply (endRecord_uniform fld rec acc).
Qed.

(** The records [ReadAll] returns all have the number of fields of the
    first, which is at least one. *)
Lemma ReadAll_uniform (body : string) (rows : list (list string)) :
  Csv.ReadAll body = Ok rows ->
  rows = [] \/ (exists n, (1 <= n)%nat /\ uniform n rows).
Proof. unfold Csv.ReadAll. apply scan_uniform. by left. Qed.

Lemma sheetLoop_wide (rows : list (list string)) (i n : nat) (set : gset string) :
  (2 <= n)%nat -> uniform n rows ->
  exists signers, sheetLoop i rows set = Returns signers.
Proof.
  intros Hn. revert i set.
  induction rows as [|row rest IH]; intros i set Hall; cbn [sheetLoop];
    [by eexists|].
  inversion Hall as [|? ? Hrow Hrest]; subst.
  destruct (i =? 0)%nat; [by apply IH|].
  destruct (length row =? 0)%nat; [by apply IH|].
  destruct (lookup_lt_is_Some_2 row 1%nat) as [field ->]; [lia|].
  destruct (decide _); by apply IH.
Qed.

Lemma sheetLoop_panic (rows : list (list string)) (i : nat) (set : gset string)
    (p : panic) :
  sheetLoop i rows set = Panics p -> p = IndexOutOfRange 1 1.
Proof.
  revert i set.
  induction rows as [|row rest IH]; intros i set; cbn [sheetLoop]; [discriminate|].
  destruct (i =? 0)%nat; [apply IH|].
  destruct (length row =? 0)%nat eqn:Hlen; [apply IH|].
  apply Nat.eqb_neq in Hlen.
  destruct (row !! 1%nat) as [field|] eqn:Hfield.
  - destruct (decide _); apply IH.
  - apply lookup_ge_None in Hfield. intros [= <-]. f_equal. lia.
Qed.

(** X4: when the sheet reader panics.  For a sheet fetched with status 200
    whose document the CSV reader accepts with a first record [header]: if
    the header has one field and a record follows, the reader panics on the
    second column of that record; in every other case (two columns or more,
    or the header alone) it returns a set. *)
Theorem sheet_panics_iff_one_column (url : string) (w : World) (s : State)
    (resp : HTTPResponse) (header : list string) (rows : list (list string)) :
  url <> "" ->
  http_Do w url = Some (Ok resp) ->
  StatusCode resp = 200%Z ->
  Csv.ReadAll (Body resp) = Ok (header :: rows) ->
  (length header = 1%nat /\ rows <> [] /\
   loadSignersFromGoogleSheet url w s
   = (Panics (IndexOutOfRange 1 1), addCalls s [HttpGet url])) \/
  (((2 <= length header)%nat \/ rows = []) /\
   exists signers,
     loadSignersFromGoogleSheet url w s
     = (Returns (Ok signers), addCalls s [HttpGet url])).
Proof.
  intros Hurl Hresp Hstatus Hread.
  rewrite (loadSignersFromGoogleSheet_run _ _ _ Hurl), Hresp.
  rewrite decide_True by done. rewrite Hread.
  destruct (ReadAll_uniform _ _ Hread) as [|(n & Hn & Hall)]; [done|].
  destruct (decide (2 <= n)%nat) as [Hwide|Hone].
  - right. inversion Hall; subst. split; [by left|].
    destruct (sheetLoop_wide (header :: rows) 0 _ ∅ Hwide Hall) as [signers ->].
    by exists signers.
  - assert (n = 1%nat) as -> by lia.
    inversion Hall as [|? ? Hheader Hrows]; subst.
    destruct rows as [|row rest].
    + right. split; [by right|]. by exists ∅.
    + left. split; [exact Hheader|]. split; [done|].
      inversion Hrows as [|? ? Hrow _]; subst.
      destruct row as [|field [|? ?]]; try discriminate. reflexivity.
Qed.

(** ** Runs that end early *)

Lemma parseEvent_run {T : Type} (decode : Document -> result T) (path : string)
    (w : World) (s : State) :
  parseEvent decode path w s =
  (Returns match files s !! path with
           | Some d => decode d
           | None => Err (errors_New ("open " ++ path ++ ": no such file or directory"))
           end, s).
Proof.
  unfold parseEvent, os_ReadFile, mbind, Go_bind, mret, Go_ret.
  by destruct (files s !! path).
Qed.

Lemma handlePullRequest_undecoded (c : cfg) (w : World) (s : State) (e : error) :
  fst (parseEvent as_PullRequestEvent (EventPath c) w s) = Returns (Err e) ->
  handlePullRequest c w s = (Returns (Some e), s).
Proof.
  unfold handlePullRequest, mbind, Go_bind. rewrite parseEvent_run. cbn [fst].
  by intros [= ->].
Qed.

Lemma handleIssueComment_undecoded (c : cfg) (w : World) (s : State) (e : error) :
  fst (parseEvent as_IssueCommentEvent (EventPath c) w s) = Returns (Err e) ->
  handleIssueComment c w s = (Returns (Some e), s).
Proof.
  unfold handleIssueComment, mbind, Go_bind. rewrite parseEvent_run. cbn [fst].
  by intros [= ->].
Qed.

Lemma handlePullRequest_cases (c : cfg) (w : World) (s : State) :
  (exists e, handlePullRequest c w s = (Returns (Some e), s)) \/
  (exists d ev,
      files s !! EventPath c = Some d /\ as_PullRequestEvent d = Ok ev /\
      handlePullRequest c w s = resolveCompliance c (GetPullRequest ev) w s).
Proof.
  destruct (files s !! EventPath c) as [d|] eqn:Hf.
  - destruct (as_PullRequestEvent d) as [ev|e] eqn:Hd.
    + right. exists d, ev. split_and!; [done..|].
      by apply handlePullRequest_resolve with d.
    + left. exists e. apply handlePullRequest_undecoded.
      rewrite parseEvent_run, Hf. cbn [fst]. by rewrite Hd.
  - left. eexists. apply handlePullRequest_undecoded.
    rewrite parseEvent_run, Hf. reflexivity.
Qed.

Lemma loadSigners_panic (c : cfg) (ref : string) (w : World) (s s' : State) (p : panic) :
  loadSigners c ref w s = (Panics p, s') ->
  (GoogleSheetUrl c <> "" /\ http_Do w (GoogleSheetUrl c) = None /\
   p = NilDereference /\ s' = s) \/
  (GoogleSheetUrl c <> "" /\
   (exists resp rows,
       http_Do w (GoogleSheetUrl c) = Some (Ok resp) /\ StatusCode resp = 200%Z /\
       Csv.ReadAll (Body resp) = Ok rows /\ sheetLoop 0 rows ∅ = Panics p) /\
   p = IndexOutOfRange 1 1 /\ s' = addCalls s [HttpGet (GoogleSheetUrl c)]) \/
  (SignersPath c <> "" /\
   Repositories_GetContents w (RepoOwner c) (RepoName c) (SignersPath c) ref = Ok None /\
   p = NilDereference /\
   s' = addCalls s
          ((if decide (GoogleSheetUrl c = "") then [] else [HttpGet (GoogleSheetUrl c)])
           ++ [GetContents (RepoOwner c) (RepoName c) (SignersPath c) ref])).
Proof.
  rewrite loadSigners_run.
  assert (Hfile : forall m1 s1,
             (let (o, s2) := if decide (SignersPath c = "") then (Returns (Ok ∅), s1)
                             else loadSignersGithub c ref w s1 in
              match o with
              | Returns (Ok m2) => (Returns (Ok (m1 ∪ m2)), s2)
              | Returns (Err e) => (Returns (Err (Errorf_w "repo file: " e)), s2)
              | Panics p => (Panics p, s2)
              end) = (Panics p, s') ->
             SignersPath c <> "" /\
             Repositories_GetContents w (RepoOwner c) (RepoName c) (SignersPath c) ref
               = Ok None /\
             p = NilDereference /\
             s' = addCalls s1 [GetContents (RepoOwner c) (RepoName c) (SignersPath c) ref]).
  { intros m1 s1. destruct (decide (SignersPath c = "")) as [Hp|Hp]; [discriminate|].
    rewrite loadSignersGithub_run.
    destruct (Repositories_GetContents w _ _ _ _) as [[file|]|e]; [| |discriminate].
    - destruct (GetContent file); discriminate.
    - by intros [= <- <-]. }
  destruct (decide (GoogleSheetUrl c = "")) as [Hu|Hu].
  - intros H. right; right. by destruct (Hfile ∅ s H) as (? & ? & ? & ->).
  - rewrite (loadSignersFromGoogleSheet_run _ _ _ Hu).
    destruct (http_Do w (GoogleSheetUrl c)) as [[resp|e]|]; [|discriminate|].
    + destruct (decide (StatusCode resp = 200%Z)) as [Hstatus|]; [|discriminate].
      destruct (Csv.ReadAll (Body resp)) as [rows|err] eqn:Hread; [|discriminate].
      destruct (sheetLoop 0 rows ∅) as [m|p'] eqn:Hloop.
      * intros H. right; right.
        destruct (Hfile m (addCalls s [HttpGet (GoogleSheetUrl c)]) H)
          as (? & ? & ? & ->).
        by rewrite addCalls_app.
      * intros [= <- <-]. right; left. split_and!; [done| | |done].
        -- by exists resp, rows.
        -- by apply (sheetLoop_panic rows 0 ∅).
    + intros [= <- <-]. by left.
Qed.

(** X5: the panics of [handlePullRequest].  A run that panics has decoded
    the event and panics while the signers are loaded, in one of three
    ways: the sheet is configured with a URL that cannot be parsed, and the
    run dereferences the nil request before any call is made; or the sheet
    is configured, the GET of the sheet is the only call made, and the run
    indexes the second column of a record of one field (index 1 out of
    range for length 1); or the signer file is configured, its fetch
    returns no file and no error (the path is a directory), and the run
    dereferences the nil file after the fetch.  In each case no status and
    no comment is posted. *)
Theorem handlePullRequest_panics (c : cfg) (w : World) (s s' : State) (p : panic) :
  handlePullRequest c w s = (Panics p, s') ->
  exists d ev,
    files s !! EventPath c = Some d /\ as_PullRequestEvent d = Ok ev /\
    let ref := Base_Ref (GetPullRequest ev) in
    ((GoogleSheetUrl c <> "" /\ http_Do w (GoogleSheetUrl c) = None /\
      p = NilDereference /\ s' = s) \/
     (GoogleSheetUrl c <> "" /\
      (exists resp rows,
          http_Do w (GoogleSheetUrl c) = Some (Ok resp) /\ StatusCode resp = 200%Z /\
          Csv.ReadAll (Body resp) = Ok rows /\ sheetLoop 0 rows ∅ = Panics p) /\
      p = IndexOutOfRange 1 1 /\ s' = addCalls s [HttpGet (GoogleSheetUrl c)]) \/
     (SignersPath c <> "" /\
      Repositories_GetContents w (RepoOwner c) (RepoName c) (SignersPath c) ref
        = Ok None /\
      p = NilDereference /\
      s' = addCalls s
             ((if decide (GoogleSheetUrl c = "") then []
               else [HttpGet (GoogleSheetUrl c)])
              ++ [GetContents (RepoOwner c) (RepoName c) (SignersPath c) ref]))) /\
    posted s' = posted s.
Proof.
  destruct (handlePullRequest_cases c w s) as [[e ->]|(d & ev & Hf & Hd & ->)];
    [discriminate|].
  rewrite resolveCompliance_run.
  destruct (loadSigners c (Base_Ref (GetPullRequest ev)) w s)
    as [[[signers|e]|p'] s1] eqn:Hload; try discriminate.
  intros [= <- <-]. exists d, ev. split; [done|]. split; [done|]. cbv zeta. split.
  - exact (loadSigners_panic _ _ _ _ _ _ Hload).
  - by destruct (loadSigners_posted _ _ _ _ _ _ Hload) as [-> _].
Qed.

(** X6: an event that cannot be read.  When the file at the event path is
    missing, or holds a document that does not decode at the type of the
    event, the handler returns that error and leaves the state as it was:
    no signer source is read, no call is made. *)
Theorem undecoded_event_makes_no_call (c : cfg) (w : World) (s : State) :
  (files s !! EventPath c = None ->
   let e := errors_New ("open " ++ EventPath c ++ ": no such file or directory") in
   handlePullRequest c w s = (Returns (Some e), s) /\
   handleIssueComment c w s = (Returns (Some e), s)) /\
  (forall d e,
      files s !! EventPath c = Some d ->
      (as_PullRequestEvent d = Err e -> handlePullRequest c w s = (Returns (Some e), s)) /\
      (as_IssueCommentEvent d = Err e -> handleIssueComment c w s = (Returns (Some e), s))).
Proof.
  split.
  - intros Hf e. split.
    + apply handlePullRequest_undecoded. rewrite parseEvent_run, Hf. reflexivity.
    + apply handleIssueComment_undecoded. rewrite parseEvent_run, Hf. reflexivity.
  - intros d e Hf. split; intros Hd.
    + apply handlePullRequest_undecoded. rewrite parseEvent_run, Hf. cbn [fst].
      by rewrite Hd.
    + apply handleIssueComment_undecoded. rewrite parseEvent_run, Hf. cbn [fst].
      by rewrite Hd.
Qed.

(** ** The issue-comment handler, run *)

Lemma handleIssueComment_run (c : cfg) (w : World) (s : State)
    (d : Document) (ev : IssueCommentEvent) :
  files s !! EventPath c = Some d ->
  as_IssueCommentEvent d = Ok ev ->
  handleIssueComment c w s =
  if decide (ToLower (Comment_User_Login ev) ∈ IgnoreAuthors c) then (Returns None, s)
  else if negb (Issue_IsPullRequest ev) then (Returns None, s)
  else if negb (Contains (ToLower (Comment_Body ev)) "@cla-bot")
          && negb (Contains (ToLower (Comment_Body ev)) "cla-bot check")
  then (Returns None, s)
  else match PullRequests_Get w (RepoOwner c) (RepoName c) (Issue_Number ev) with
       | Err e =>
           (Returns (Some e),
            addCalls s [GetPull (RepoOwner c) (RepoName c) (Issue_Number ev)])
       | Ok pr =>
           handlePullRequest (subCfg_of c) w (fetched w s c (Issue_Number ev) pr)
       end.
Proof.
  intros Hf Hd.
  unfold handleIssueComment, parseEvent, os_ReadFile.
  unfold mbind, Go_bind, mret, Go_ret, call, ask, os_WriteFile.
  rewrite Hf, Hd.
  destruct (decide _); [reflexivity|].
  destruct (negb (Issue_IsPullRequest ev)); [reflexivity|].
  destruct (negb _ && negb _); [reflexivity|].
  destruct (PullRequests_Get w _ _ _) as [pr|e]; [|reflexivity].
  unfold fetched, subCfg_of. by destruct (can_write w tmpFile).
Qed.

(** X7: a pull request that cannot be fetched.  For an issue-comment event
    that passes the three guards, when the platform fails to return the pull
    request the handler returns that error after the one call of the fetch:
    no signer source is read, the temporary file is not written and nothing
    is posted. *)
Theorem unfetched_pull_request_aborts (c : cfg) (w : World) (s : State)
    (d : Document) (ev : IssueCommentEvent) (e : error) :
  files s !! EventPath c = Some d ->
  as_IssueCommentEvent d = Ok ev ->
  ToLower (Comment_User_Login ev) ∉ IgnoreAuthors c ->
  Issue_IsPullRequest ev = true ->
  Contains (ToLower (Comment_Body ev)) "@cla-bot" = true \/
  Contains (ToLower (Comment_Body ev)) "cla-bot check" = true ->
  PullRequests_Get w (RepoOwner c) (RepoName c) (Issue_Number ev) = Err e ->
  handleIssueComment c w s =
    (Returns (Some e),
     {| files := files s;
        calls := calls s ++ [GetPull (RepoOwner c) (RepoName c) (Issue_Number ev)] |}).
Proof.
  intros Hf Hd Hauthor Hpr Htrigger Hpull.
  rewrite (handleIssueComment_run c w s d ev Hf Hd).
  rewrite decide_False, Hpr, Hpull by done. cbn [negb].
  by destruct Htrigger as [-> | ->]; [|rewrite andb_false_r].
Qed.

(** ** At most one verdict *)

Lemma one_verdict_calls (c : cfg) (pr : PullRequest) (signers : gset string) :
  one_verdict (Returns None) (verdict_calls c pr signers).
Proof.
  right. split; [reflexivity|]. unfold verdict_calls.
  destruct (decide _); [left|right]; by repeat eexists.
Qed.

Lemma handlePullRequest_one_verdict (c : cfg) (w : World) (s s' : State)
    (o : outcome (option error)) :
  handlePullRequest c w s = (o, s') ->
  exists posts, posted s' = posted s ++ posts /\ one_verdict o posts.
Proof.
  destruct (handlePullRequest_cases c w s) as [[e ->]|(d & ev & _ & _ & ->)].
  - intros [= <- <-]. exists []. split; [by rewrite app_nil_r|by left].
  - rewrite resolveCompliance_run.
    destruct (loadSigners c (Base_Ref (GetPullRequest ev)) w s)
      as [[[signers|e]|p] s1] eqn:Hload;
      destruct (loadSigners_posted _ _ _ _ _ _ Hload) as [Hposted _];
      intros [= <- <-].
    + exists (verdict_calls c (GetPullRequest ev) signers).
      rewrite posted_addCalls, Hposted. split; [|apply one_verdict_calls].
      f_equal. unfold verdict_calls. by destruct (decide _).
    + exists []. split; [by rewrite app_nil_r|by left].
    + exists []. split; [by rewrite app_nil_r|by left].
Qed.

Lemma handleIssueComment_one_verdict (c : cfg) (w : World) (s s' : State)
    (o : outcome (option error)) :
  handleIssueComment c w s = (o, s') ->
  exists posts, posted s' = posted s ++ posts /\ one_verdict o posts.
Proof.
  assert (Hnone : forall o', (o', s) = (o, s') ->
             exists posts, posted s' = posted s ++ posts /\ one_verdict o posts).
  { intros o' [= <- <-]. exists []. split; [by rewrite app_nil_r|by left]. }
  destruct (files s !! EventPath c) as [d|] eqn:Hf; cycle 1.
  { rewrite (handleIssueComment_undecoded c w s _
               ltac:(rewrite parseEvent_run, Hf; reflexivity)). apply Hnone. }
  destruct (as_IssueCommentEvent d) as [ev|e] eqn:Hd; cycle 1.
  { rewrite (handleIssueComment_undecoded c w s e
               ltac:(rewrite parseEvent_run, Hf; cbn [fst]; by rewrite Hd)).
    apply Hnone. }
  rewrite (handleIssueComment_run c w s d ev Hf Hd).
  destruct (decide _); [apply Hnone|].
  destruct (negb (Issue_IsPullRequest ev)); [apply Hnone|].
  destruct (negb _ && negb _); [apply Hnone|].
  destruct (PullRequests_Get w _ _ _) as [pr|e].
  - intros Hrun.
    destruct (handlePullRequest_one_verdict _ _ _ _ _ Hrun) as (posts & Hposted & Hone).
    exists posts. split; [|exact Hone].
    rewrite Hposted. f_equal. unfold posted, fetched. cbn [calls].
    rewrite List.filter_app. apply app_nil_r.
  - intros [= <- <-]. exists []. split; [|by left].
    rewrite posted_addCalls. reflexivity.
Qed.

(** X8: at most one verdict.  Every run of [main], and every run of either
    handler, whatever the environment, the event and the answers of the
    platform, posts nothing, or one success status, or one failure status
    followed by one comment; and a run that posts ends without error and
    without panic. *)
Theorem every_run_posts_one_verdict (Getenv : Env) (c : cfg) (w : World) (s s' : State)
    (o : outcome (option error)) :
  main Getenv w s = (o, s') \/
  handlePullRequest c w s = (o, s') \/
  handleIssueComment c w s = (o, s') ->
  exists posts,
    posted s' = posted s ++ posts /\
    (posts = [] \/
     o = Returns None /\
     ((exists owner name sha,
          posts = [CreateStatus owner name sha "success" CLA_signed "CLA check"]) \/
      (exists owner name sha number body,
          posts = [CreateStatus owner name sha "failure" CLA_not_signed "CLA check";
                   CreateComment owner name number body]))).
Proof.
  intros [Hmain|[Hpr|Hic]];
    [|by apply (handlePullRequest_one_verdict c w)
     |by apply (handleIssueComment_one_verdict c w)].
  revert Hmain. unfold main, mbind, Go_bind, lift.
  destruct (fromEnv Getenv) as [c'|p].
  - destruct (decide _); [apply handlePullRequest_one_verdict|].
    destruct (decide _); [apply handleIssueComment_one_verdict|].
    intros [= <- <-]. exists []. split; [by rewrite app_nil_r|by left].
  - intros [= <- <-]. exists []. split; [by rewrite app_nil_r|by left].
Qed.

(** ** The configuration and the dispatch *)

Lemma fromEnv_fields (Getenv : Env) (c : cfg) :
  fromEnv Getenv = Returns c ->
  (exists rest,
      Split (Getenv "GITHUB_REPOSITORY") "/" = RepoOwner c :: RepoName c :: rest) /\
  EventName c = Getenv "GITHUB_EVENT_NAME" /\
  EventPath c = Getenv "GITHUB_EVENT_PATH" /\
  SignersPath c = Getenv "SIGNERS_PATH" /\
  GoogleSheetUrl c = Getenv "GOOGLE_SHEET_URL" /\
  CommentMsg c =
    (if decide (Getenv "COMMENT_MSG" = "")
     then "Please sign the CLA and then comment `@cla-bot check` on this PR."
     else Getenv "COMMENT_MSG") /\
  IgnoreAuthors c =
    ignoreLoop
      (Split (if decide (Getenv "BOT_IGNORE_AUTHORS" = "") then "github-actions[bot]"
              else Getenv "BOT_IGNORE_AUTHORS") ",") ∅.
Proof.
  unfold fromEnv.
  destruct (Split (Getenv "GITHUB_REPOSITORY") "/") as [|owner [|name rest]];
    try discriminate.
  simpl. intros [= <-]. simpl. split_and!; try reflexivity. by exists rest.
Qed.

Lemma ignoreLoop_spec (names : list string) (set : gset string) (x : string) :
  x ∈ ignoreLoop names set <->
  x ∈ set \/ exists a, In a names /\ x = ToLower (TrimSpace a).
Proof.
  unfold ignoreLoop. revert set.
  induction names as [|a rest IH]; intros set; simpl.
  - split; [by left|]. by intros [H|(a & [] & _)].
  - rewrite IH, elem_of_union, elem_of_singleton. split.
    + intros [[->|H]|(b & Hb & Hx)].
      * right. exists a. by split; [left|].
      * by left.
      * right. exists b. by split; [right|].
    + intros [H|(b & [<-|Hb] & Hx)].
      * left. by right.
      * left. by left.
      * right. by exists b.
Qed.

(** X9: the dispatch of [main].  Without a slash in GITHUB_REPOSITORY the
    run panics before anything else, whatever the event.  With one, an event
    name that is neither pull_request nor issue_comment ends the run at once:
    no file is read, no call is made, no error is returned; and the two
    names run their handler on the configuration of the environment. *)
Theorem main_dispatch (Getenv : Env) (w : World) (s : State) :
  (Contains (Getenv "GITHUB_REPOSITORY") "/" = false ->
   main Getenv w s = (Panics (IndexOutOfRange 1 1), s)) /\
  (forall c, fromEnv Getenv = Returns c ->
     (Getenv "GITHUB_EVENT_NAME" = "pull_request" ->
      main Getenv w s = handlePullRequest c w s) /\
     (Getenv "GITHUB_EVENT_NAME" = "issue_comment" ->
      main Getenv w s = handleIssueComment c w s) /\
     (Getenv "GITHUB_EVENT_NAME" <> "pull_request" ->
      Getenv "GITHUB_EVENT_NAME" <> "issue_comment" ->
      main Getenv w s = (Returns None, s))).
Proof.
  split.
  - intros Hslash. unfold main, mbind, Go_bind, lift, fromEnv.
    by rewrite (Split_no_slash _ Hslash).
  - intros c Hc. destruct (fromEnv_fields _ _ Hc) as (_ & Hname & _).
    unfold main, mbind, Go_bind, lift. rewrite Hc, Hname.
    split_and!.
    + intros ->. reflexivity.
    + intros ->. reflexivity.
    + intros Hpr Hic. by rewrite !decide_False.
Qed.

(** X10: the ignore-list and the message of the configuration.  The
    ignore-list holds exactly the lowercased, trimmed pieces of
    BOT_IGNORE_AUTHORS split on commas, is never empty, and is the one
    identity of the Actions bot when the variable is not set; the comment
    message is never empty, and is COMMENT_MSG when that is set. *)
Theorem fromEnv_ignore_list (Getenv : Env) (c : cfg) :
  fromEnv Getenv = Returns c ->
  let raw := if decide (Getenv "BOT_IGNORE_AUTHORS" = "") then "github-actions[bot]"
             else Getenv "BOT_IGNORE_AUTHORS" in
  (forall x, x ∈ IgnoreAuthors c <->
             exists a, In a (Split raw ",") /\ x = ToLower (TrimSpace a)) /\
  IgnoreAuthors c <> ∅ /\
  (Getenv "BOT_IGNORE_AUTHORS" = "" -> IgnoreAuthors c = {[ "github-actions[bot]" ]}) /\
  CommentMsg c <> "" /\
  (Getenv "COMMENT_MSG" <> "" -> CommentMsg c = Getenv "COMMENT_MSG").
Proof.
  intros Hc raw.
  destruct (fromEnv_fields _ _ Hc) as (_ & _ & _ & _ & _ & Hmsg & Hignore).
  fold raw in Hignore.
  assert (Hmem : forall x, x ∈ IgnoreAuthors c <->
                           exists a, In a (Split raw ",") /\ x = ToLower (TrimSpace a)).
  { intros x. rewrite Hignore, ignoreLoop_spec. split.
    - intros [H|H]; [set_solver|exact H].
    - intros H. by right. }
  split_and!.
  - exact Hmem.
  - pose proof (splitFrom_nonempty "," raw 0) as Hne.
    unfold Split in Hmem. destruct (splitFrom "," raw 0) as [|a rest] eqn:Hsplit; [done|].
    intros Hempty.
    assert (ToLower (TrimSpace a) ∈ IgnoreAuthors c) as Hin
      by (apply Hmem; exists a; by split; [left|]).
    rewrite Hempty in Hin. set_solver.
  - intros Hunset. rewrite Hignore. unfold raw. rewrite decide_True by done.
    rewrite ignoreLoop_ASCII by reflexivity. vm_compute. reflexivity.
  - rewrite Hmsg. destruct (decide (Getenv "COMMENT_MSG" = "")) as [|Hset]; [|exact Hset].
    intros Hnone. discriminate Hnone.
  - intros Hset. rewrite Hmsg. by rewrite decide_False.
Qed.

(** X11: the ignore-list at work.  A comment whose author, up to letter
    case, is one of the names of BOT_IGNORE_AUTHORS, up to white space around
    the name, makes the configuration of that environment end the handler
    with no call. *)
Theorem ignored_author_of_the_environment (Getenv : Env) (c : cfg) (w : World)
    (s : State) (d : Document) (ev : IssueCommentEvent) (a : string) :
  fromEnv Getenv = Returns c ->
  In a (Split (if decide (Getenv "BOT_IGNORE_AUTHORS" = "") then "github-actions[bot]"
               else Getenv "BOT_IGNORE_AUTHORS") ",") ->
  files s !! EventPath c = Some d ->
  as_IssueCommentEvent d = Ok ev ->
  ToLower (Comment_User_Login ev) = ToLower (TrimSpace a) ->
  handleIssueComment c w s = (Returns None, s).
Proof.
  intros Hc Ha Hf Hd Hlogin.
  destruct (fromEnv_fields _ _ Hc) as (_ & _ & _ & _ & _ & _ & Hignore).
  rewrite (handleIssueComment_run c w s d ev Hf Hd).
  rewrite decide_True; [reflexivity|].
  rewrite Hignore, ignoreLoop_spec. right. by exists a.
Qed.

(** ** Splitting the repository on the slash *)

Lemma Contains_slash_cons (c : ascii) (r : string) :
  Contains (String c r) "/" = Ascii.eqb "/" c || Contains r "/".
Proof.
  unfold Contains. rewrite Index_slash_cons.
  destruct (Ascii.eqb "/" c); [reflexivity|].
  by destruct (Index r "/").
Qed.

Lemma Split_slash_pieces (s : string) :
  Forall (fun piece => Contains piece "/" = false) (Split s "/").
Proof.
  unfold Split. induction s as [|c r IH]; [by repeat constructor|].
  rewrite splitFrom_slash_cons.
  destruct (Ascii.eqb "/" c) eqn:Hc; [by constructor|].
  destruct (splitFrom "/" r 0) as [|piece rest].
  - repeat constructor. by rewrite Contains_slash_cons, Hc.
  - inversion IH; subst. constructor; [|done].
    by rewrite Contains_slash_cons, Hc.
Qed.

Lemma append_empty_r (x : string) : (x ++ "")%string = x.
Proof.
  induction x as [|c r IH]; [reflexivity|].
  change (String c (r ++ "")%string = String c r). by f_equal.
Qed.

Lemma concat_cons (sep x y : string) (l : list string) :
  String.concat sep (x :: y :: l) = (x ++ sep ++ String.concat sep (y :: l))%string.
Proof. reflexivity. Qed.

(** Joining the pieces with the slash gives the string back. *)
Lemma Split_slash_concat (s : string) : String.concat "/" (Split s "/") = s.
Proof.
  unfold Split. induction s as [|c r IH]; [reflexivity|].
  rewrite splitFrom_slash_cons.
  pose proof (splitFrom_nonempty "/" r 0) as Hne.
  destruct (Ascii.eqb "/" c) eqn:Hc.
  - apply Ascii.eqb_eq in Hc. subst c.
    destruct (splitFrom "/" r 0) as [|piece rest]; [done|].
    rewrite concat_cons, IH. reflexivity.
  - destruct (splitFrom "/" r 0) as [|piece rest]; [done|].
    destruct rest as [|next rest].
    + cbn [String.concat] in *. by rewrite IH.
    + rewrite concat_cons in *. rewrite <- IH. reflexivity.
Qed.

(** X12: the repository coordinates.  When [fromEnv] returns, the owner and
    the name contain no slash, and GITHUB_REPOSITORY is the owner, a slash,
    the name and a rest that is empty or starts with a slash: what follows a
    second slash is dropped. *)
Theorem fromEnv_owner_and_name (Getenv : Env) (c : cfg) :
  fromEnv Getenv = Returns c ->
  Contains (RepoOwner c) "/" = false /\
  Contains (RepoName c) "/" = false /\
  exists rest,
    Getenv "GITHUB_REPOSITORY" = (RepoOwner c ++ "/" ++ RepoName c ++ rest)%string /\
    (rest = "" \/ exists more, rest = String "/" more).
Proof.
  intros Hc. destruct (fromEnv_fields _ _ Hc) as ((pieces & Hsplit) & _).
  pose proof (Split_slash_pieces (Getenv "GITHUB_REPOSITORY")) as Hall.
  pose proof (Split_slash_concat (Getenv "GITHUB_REPOSITORY")) as Hjoin.
  rewrite Hsplit in Hall, Hjoin.
  inversion Hall as [|? ? Howner Hrest]; subst.
  inversion Hrest as [|? ? Hname _]; subst.
  split_and!; [done..|].
  rewrite concat_cons in Hjoin.
  destruct pieces as [|next pieces].
  - exists "". split; [|by left]. rewrite <- Hjoin, append_empty_r. reflexivity.
  - exists (String "/" (String.concat "/" (next :: pieces))). split; [|right; by eexists].
    rewrite <- Hjoin, concat_cons. reflexivity.
Qed.

(** X13: a temporary file that cannot be written.  For an issue-comment
    event that passes the three guards and whose pull request is fetched,
    when the write of the temporary file fails and no file is at its path,
    the handler returns the error of reading it, after the one call of the
    fetch: no signer source is read and nothing is posted. *)
Theorem unwritten_temporary_file_aborts (c : cfg) (w : World) (s : State)
    (d : Document) (ev : IssueCommentEvent) (pr : PullRequest) :
  files s !! EventPath c = Some d ->
  as_IssueCommentEvent d = Ok ev ->
  ToLower (Comment_User_Login ev) ∉ IgnoreAuthors c ->
  Issue_IsPullRequest ev = true ->
  Contains (ToLower (Comment_Body ev)) "@cla-bot" = true \/
  Contains (ToLower (Comment_Body ev)) "cla-bot check" = true ->
  PullRequests_Get w (RepoOwner c) (RepoName c) (Issue_Number ev) = Ok pr ->
  can_write w tmpFile = false ->
  files s !! tmpFile = None ->
  handleIssueComment c w s =
    (Returns (Some (errors_New "open /tmp/pr_event.json: no such file or directory")),
     {| files := files s;
        calls := calls s ++ [GetPull (RepoOwner c) (RepoName c) (Issue_Number ev)] |}).
Proof.
  intros Hf Hd Hauthor Hpr Htrigger Hpull Hwrite Htmp.
  rewrite (handleIssueComment_run c w s d ev Hf Hd).
  rewrite decide_False, Hpr, Hpull by done. cbn [negb].
  assert (negb (Contains (ToLower (Comment_Body ev)) "@cla-bot")
          && negb (Contains (ToLower (Comment_Body ev)) "cla-bot check") = false)
    as -> by (destruct Htrigger as [-> | ->]; [reflexivity | apply andb_false_r]).
  unfold fetched. rewrite Hwrite.
  apply handlePullRequest_undecoded.
  rewrite parseEvent_run. cbn [fst files EventPath subCfg_of]. by rewrite Htmp.
Qed.

(** ** Sources that are missing or fail *)

(** X14: no signer source.  With neither the sheet nor the signer file
    configured the merged set is empty, so that every pull request, whoever
    its author, gets the failure status and the comment, with no fetch
    before them. *)
Theorem without_sources_everyone_fails (c : cfg) (w : World) (s : State)
    (d : Document) (ev : PullRequestEvent) :
  files s !! EventPath c = Some d ->
  as_PullRequestEvent d = Ok ev ->
  GoogleSheetUrl c = "" ->
  SignersPath c = "" ->
  handlePullRequest c w s =
    (Returns None,
     addCalls s
       [CreateStatus (RepoOwner c) (RepoName c) (Head_SHA (GetPullRequest ev)) "failure"
          CLA_not_signed "CLA check";
        CreateComment (RepoOwner c) (RepoName c) (Number (GetPullRequest ev))
          ("@" ++ ToLower (User_Login (GetPullRequest ev)) ++ " " ++ CommentMsg c)]).
Proof.
  intros Hf Hd Hu Hp.
  rewrite (handlePullRequest_resolve c w s d ev Hf Hd), resolveCompliance_run.
  rewrite loadSigners_run, !decide_True by done.
  unfold verdict_calls. rewrite decide_False; [reflexivity|]. set_solver.
Qed.

(** X15: the failures of the sheet.  For a decoded pull-request event and
    a configured sheet: a GET that fails, an answer whose status is not 200
    (its body is not read), and a body the CSV reader refuses each end the
    run with the error wrapped after the prefix of the sheet, after the one
    call of the GET; the signer file is not fetched and nothing is posted. *)
Theorem sheet_failures (c : cfg) (w : World) (s : State)
    (d : Document) (ev : PullRequestEvent) :
  files s !! EventPath c = Some d ->
  as_PullRequestEvent d = Ok ev ->
  GoogleSheetUrl c <> "" ->
  let aborts e :=
    handlePullRequest c w s
    = (Returns (Some (Errorf_w "sheet: " e)), addCalls s [HttpGet (GoogleSheetUrl c)]) in
  (forall e, http_Do w (GoogleSheetUrl c) = Some (Err e) -> aborts e) /\
  (forall resp,
      http_Do w (GoogleSheetUrl c) = Some (Ok resp) ->
      StatusCode resp <> 200%Z ->
      aborts (errors_New ("google sheets returned " ++ Status resp))) /\
  (forall resp e,
      http_Do w (GoogleSheetUrl c) = Some (Ok resp) ->
      StatusCode resp = 200%Z ->
      Csv.ReadAll (Body resp) = Err e ->
      aborts e).
Proof.
  intros Hf Hd Hu aborts. unfold aborts.
  rewrite (handlePullRequest_resolve c w s d ev Hf Hd), resolveCompliance_run.
  rewrite loadSigners_run, decide_False by done.
  rewrite (loadSignersFromGoogleSheet_run _ _ _ Hu).
  split_and!.
  - by intros e ->.
  - intros resp -> Hstatus. by rewrite decide_False.
  - intros resp e -> Hstatus Hread. by rewrite decide_True, Hread.
Qed.

(** X16: the failures of the signer file.  For a decoded pull-request event,
    no sheet and a configured signer file: a fetch that fails and a content
    that cannot be decoded each end the run with the error wrapped after the
    prefix of the repository file, after the one call of the fetch, which
    asks for the file at the base branch of the pull request; nothing is
    posted. *)
Theorem signer_file_failures (c : cfg) (w : World) (s : State)
    (d : Document) (ev : PullRequestEvent) :
  files s !! EventPath c = Some d ->
  as_PullRequestEvent d = Ok ev ->
  GoogleSheetUrl c = "" ->
  SignersPath c <> "" ->
  let fetch :=
    Repositories_GetContents w (RepoOwner c) (RepoName c) (SignersPath c)
      (Base_Ref (GetPullRequest ev)) in
  let aborts e :=
    handlePullRequest c w s
    = (Returns (Some (Errorf_w "repo file: " e)),
       addCalls s [GetContents (RepoOwner c) (RepoName c) (SignersPath c)
                     (Base_Ref (GetPullRequest ev))]) in
  (forall e, fetch = Err e -> aborts e) /\
  (forall file e, fetch = Ok (Some file) -> GetContent file = Err e -> aborts e).
Proof.
  intros Hf Hd Hu Hp fetch aborts. unfold aborts, fetch.
  rewrite (handlePullRequest_resolve c w s d ev Hf Hd), resolveCompliance_run.
  rewrite loadSigners_run, decide_True, decide_False by done.
  rewrite loadSignersGithub_run.
  split.
  - by intros e ->.
  - intros file e -> Hcontent. by rewrite Hcontent.
Qed.

End Properties.

(** * Runs on ASCII text

    The runs below are on ASCII text, where the two operations of every
    [GoStrings] are the ASCII ones (see [handlePullRequest_ASCII]); they
    are evaluated with [ascii_strings]. *)

#[global] Existing Instance ascii_strings.

(** C9 at the fixture: a sheet with alice and bob and a signer file with
    bob and carol aggregate to the union of the two sets. *)
Lemma aggregation_is_union_witness :
  loadSigners demo_cfg "main"
    (demo_world (http_200 spec_csv) (Ok ("bob" ++ LF ++ "Carol")%string)
                (Err (errors_New "unused")) true)
    (start "/github/workflow/event.json" (pull_request_payload (demo_pr "alice")))
  = (Returns (Ok ({[ "alice"; "bob" ]} ∪ {[ "bob"; "carol" ]})),
     addCalls
       (start "/github/workflow/event.json" (pull_request_payload (demo_pr "alice")))
       [HttpGet "https://sheets.example/pub?output=csv";
        GetContents "your-org" "awesome-project" "cla-signers.txt" "main"]).
Proof.
  refine (proj2 (proj2 (proj2 (proj2 (proj2 (proj2 (proj2
    (aggregation_is_union demo_cfg "main" _ _)))))))
    _ _ {[ "alice"; "bob" ]} _ {[ "bob"; "carol" ]} _ _ _).
  - discriminate.
  - discriminate.
  - reflexivity.
  - reflexivity.
Defined.

(** C10 at the empty environment, at a value without a slash and at
    an owner and a name. *)
Lemma fromEnv_total_iff_slash_witness :
  fromEnv no_env = Panics (IndexOutOfRange 1 1) /\
  fromEnv (env_repo "awesome-project") = Panics (IndexOutOfRange 1 1) /\
  exists c, fromEnv (env_repo "your-org/awesome-project") = Returns c.
Proof.
  split; [|split].
  - apply (proj1 (proj2 (fromEnv_total_iff_slash no_env))). reflexivity.
  - apply (proj1 (proj2 (fromEnv_total_iff_slash (env_repo "awesome-project")))).
    reflexivity.
  - apply (proj1 (fromEnv_total_iff_slash (env_repo "your-org/awesome-project"))).
    reflexivity.
Defined.

Lemma sheet_example_witness :
  loadSignersFromGoogleSheet "https://sheets.example/pub?output=csv"
    (demo_world (http_200 spec_csv) (Ok "") (Err (errors_New "unused")) true)
    (start "/github/workflow/event.json" (pull_request_payload (demo_pr "alice")))
  = (Returns (Ok {[ "alice"; "bob" ]}),
     addCalls
       (start "/github/workflow/event.json" (pull_request_payload (demo_pr "alice")))
       [HttpGet "https://sheets.example/pub?output=csv"]).
Proof.
  refine (proj2 (sheet_example "https://sheets.example/pub?output=csv" "200 OK"
                   (demo_world (http_200 spec_csv) (Ok "") (Err (errors_New "unused")) true)
                   _ _ _)).
  - discriminate.
  - reflexivity.
Defined.

Lemma signer_file_example_witness :
  loadSignersGithub demo_cfg "main"
    (demo_world http_500 (Ok spec_signers_file) (Err (errors_New "unused")) true)
    (start "/github/workflow/event.json" (pull_request_payload (demo_pr "alice")))
  = (Returns (Ok {[ "alice"; "bob" ]}),
     addCalls
       (start "/github/workflow/event.json" (pull_request_payload (demo_pr "alice")))
       [GetContents "your-org" "awesome-project" "cla-signers.txt" "main"]).
Proof.
  refine (proj2 (signer_file_example demo_cfg "main"
                   (demo_world http_500 (Ok spec_signers_file) (Err (errors_New "unused")) true)
                   _ {| GetContent := Ok spec_signers_file |} _ _)).
  - reflexivity.
  - reflexivity.
Defined.

(** C1 at the fixture: when the sheet answers with status 500, and when
    the sheet loads and the signer file cannot be decoded, the run returns
    the wrapped error and no status is posted. *)
Lemma signer_source_failure_aborts_witness :
  let s := start "/github/workflow/event.json" (pull_request_payload (demo_pr "alice")) in
  (handlePullRequest demo_cfg
     (demo_world http_500 (Ok spec_signers_file) (Err (errors_New "unused")) true) s
   = (Returns
        (Some (Errorf_w "sheet: "
                 (errors_New "google sheets returned 500 Internal Server Error"))),
      addCalls s [HttpGet "https://sheets.example/pub?output=csv"])
   /\ posted (addCalls s [HttpGet "https://sheets.example/pub?output=csv"]) = posted s) /\
  (handlePullRequest demo_cfg
     (demo_world (http_200 spec_csv) (Err (errors_New "unsupported content encoding"))
                 (Err (errors_New "unused")) true) s
   = (Returns
        (Some (Errorf_w "repo file: " (errors_New "unsupported content encoding"))),
      addCalls s [HttpGet "https://sheets.example/pub?output=csv";
                  GetContents "your-org" "awesome-project" "cla-signers.txt" "main"])
   /\ posted
        (addCalls s [HttpGet "https://sheets.example/pub?output=csv";
                     GetContents "your-org" "awesome-project" "cla-signers.txt" "main"])
      = posted s).
Proof.
  cbv zeta. split.
  - pose proof
      (signer_source_failure_aborts demo_cfg
         (demo_world http_500 (Ok spec_signers_file) (Err (errors_New "unused")) true)
         (start "/github/workflow/event.json" (pull_request_payload (demo_pr "alice")))
         (pull_request_payload (demo_pr "alice"))
         {| GetPullRequest := demo_pr "alice" |}
         eq_refl eq_refl) as (Hsheet & _ & Hrun).
    assert (GoogleSheetUrl demo_cfg <> "") as Hu by discriminate.
    destruct (Hrun _ _ (Hsheet _ _ Hu eq_refl)) as (Hh & Hp & _).
    split; [exact Hh | exact Hp].
  - pose proof
      (signer_source_failure_aborts demo_cfg
         (demo_world (http_200 spec_csv) (Err (errors_New "unsupported content encoding"))
                     (Err (errors_New "unused")) true)
         (start "/github/workflow/event.json" (pull_request_payload (demo_pr "alice")))
         (pull_request_payload (demo_pr "alice"))
         {| GetPullRequest := demo_pr "alice" |}
         eq_refl eq_refl) as (_ & Hrepo & Hrun).
    assert (SignersPath demo_cfg <> "") as Hp by discriminate.
    assert (GoogleSheetUrl demo_cfg <> "") as Hu by discriminate.
    specialize (Hrepo (errors_New "unsupported content encoding")
                  (addCalls
                     (start "/github/workflow/event.json"
                        (pull_request_payload (demo_pr "alice")))
                     [HttpGet "https://sheets.example/pub?output=csv"])
                  (addCalls
                     (start "/github/workflow/event.json"
                        (pull_request_payload (demo_pr "alice")))
                     [HttpGet "https://sheets.example/pub?output=csv";
                      GetContents "your-org" "awesome-project" "cla-signers.txt" "main"])
                  Hp).
    assert (Hload := Hrepo
              ltac:(right; split; [exact Hu|];
                    exists {[ "alice"; "bob" ]}; vm_compute; reflexivity)
              ltac:(vm_compute; reflexivity)).
    destruct (Hrun _ _ Hload) as (Hh & Hposted & _).
    split; [exact Hh | exact Hposted].
Defined.

(** C4 at the fixture: Mallory is in no signer source; the run posts one
    failure status and one comment addressed to the lowercased handle. *)
Lemma successful_run_posts_witness :
  exists d ev signers s1,
    files (start "/github/workflow/event.json" (pull_request_payload (demo_pr "Mallory")))
      !! EventPath demo_cfg = Some d /\
    as_PullRequestEvent d = Ok ev /\
    let pr := GetPullRequest ev in
    let author := ToLower (User_Login pr) in
    let posts :=
      if decide (author ∈ signers)
      then [CreateStatus (RepoOwner demo_cfg) (RepoName demo_cfg) (Head_SHA pr) "success"
              CLA_signed "CLA check"]
      else [CreateStatus (RepoOwner demo_cfg) (RepoName demo_cfg) (Head_SHA pr) "failure"
              CLA_not_signed "CLA check";
            CreateComment (RepoOwner demo_cfg) (RepoName demo_cfg) (Number pr)
              ("@" ++ author ++ " " ++ CommentMsg demo_cfg)] in
    loadSigners demo_cfg (Base_Ref pr)
      (demo_world (http_200 spec_csv) (Ok spec_signers_file) (Err (errors_New "unused")) true)
      (start "/github/workflow/event.json" (pull_request_payload (demo_pr "Mallory")))
    = (Returns (Ok signers), s1) /\
    calls
      (addCalls
         (start "/github/workflow/event.json" (pull_request_payload (demo_pr "Mallory")))
         [HttpGet "https://sheets.example/pub?output=csv";
          GetContents "your-org" "awesome-project" "cla-signers.txt" "main";
          CreateStatus "your-org" "awesome-project" "0a1b2c3" "failure" CLA_not_signed
            "CLA check";
          CreateComment "your-org" "awesome-project" 7 "@mallory Please sign the CLA."])
    = calls s1 ++ posts /\
    posted
      (addCalls
         (start "/github/workflow/event.json" (pull_request_payload (demo_pr "Mallory")))
         [HttpGet "https://sheets.example/pub?output=csv";
          GetContents "your-org" "awesome-project" "cla-signers.txt" "main";
          CreateStatus "your-org" "awesome-project" "0a1b2c3" "failure" CLA_not_signed
            "CLA check";
          CreateComment "your-org" "awesome-project" 7 "@mallory Please sign the CLA."])
    = posted (start "/github/workflow/event.json" (pull_request_payload (demo_pr "Mallory")))
      ++ posts.
Proof.
  apply (successful_run_posts demo_cfg
           (demo_world (http_200 spec_csv) (Ok spec_signers_file)
                       (Err (errors_New "unused")) true)).
  reflexivity.
Defined.

(** C5 at the fixture, once for each guard: a comment of the bot itself, a
    comment on an issue that is no pull request, and a comment without a
    trigger phrase. *)
Lemma guarded_comment_is_ignored_witness :
  let w := demo_world (http_200 spec_csv) (Ok spec_signers_file)
                      (Ok (demo_pr "alice")) true in
  let run ev :=
    handleIssueComment demo_cfg w
      (start "/github/workflow/event.json" (issue_comment_payload ev))
    = (Returns None, start "/github/workflow/event.json" (issue_comment_payload ev)) in
  run (demo_comment "GitHub-Actions[bot]" "@cla-bot check" true) /\
  run (demo_comment "alice" "@cla-bot check" false) /\
  run (demo_comment "alice" "please review" true).
Proof.
  cbv zeta. split; [|split].
  - apply (guarded_comment_is_ignored demo_cfg _
             (start "/github/workflow/event.json" _)
             (issue_comment_payload (demo_comment "GitHub-Actions[bot]" "@cla-bot check" true))
             (demo_comment "GitHub-Actions[bot]" "@cla-bot check" true)
             eq_refl eq_refl).
    left. reflexivity.
  - apply (guarded_comment_is_ignored demo_cfg _
             (start "/github/workflow/event.json" _)
             (issue_comment_payload (demo_comment "alice" "@cla-bot check" false))
             (demo_comment "alice" "@cla-bot check" false)
             eq_refl eq_refl).
    right. left. reflexivity.
  - apply (guarded_comment_is_ignored demo_cfg _
             (start "/github/workflow/event.json" _)
             (issue_comment_payload (demo_comment "alice" "please review" true))
             (demo_comment "alice" "please review" true)
             eq_refl eq_refl).
    right. right. split; reflexivity.
Defined.



(** C6 at the fixture: Bob asks for a check on pull request 7 of Alice. *)
Lemma issue_comment_as_pull_request_witness :
  exists (o : outcome (option error)) (delta : list Call),
    handleIssueComment demo_cfg
      (demo_world (http_200 spec_csv) (Ok spec_signers_file) (Ok (demo_pr "Alice")) true)
      (start "/github/workflow/event.json"
             (issue_comment_payload (demo_comment "bob" "@CLA-bot check" true)))
    = (o, {| files :=
               <[tmpFile := json_Marshal {| GetPullRequest := demo_pr "Alice" |}]>
                 (files
                    (start "/github/workflow/event.json"
                       (issue_comment_payload (demo_comment "bob" "@CLA-bot check" true))));
             calls :=
               calls
                 (start "/github/workflow/event.json"
                    (issue_comment_payload (demo_comment "bob" "@CLA-bot check" true)))
               ++ [GetPull (RepoOwner demo_cfg) (RepoName demo_cfg)
                     (Issue_Number (demo_comment "bob" "@CLA-bot check" true))]
               ++ delta |}) /\
    handlePullRequest demo_cfg
      (demo_world (http_200 spec_csv) (Ok spec_signers_file) (Ok (demo_pr "Alice")) true)
      (start "/github/workflow/event.json" (pull_request_payload (demo_pr "Alice")))
    = (o, addCalls
            (start "/github/workflow/event.json" (pull_request_payload (demo_pr "Alice")))
            delta).
Proof.
  apply (issue_comment_as_pull_request demo_cfg demo_cfg
           (demo_world (http_200 spec_csv) (Ok spec_signers_file)
                       (Ok (demo_pr "Alice")) true)
           (start "/github/workflow/event.json"
                  (issue_comment_payload (demo_comment "bob" "@CLA-bot check" true)))
           (start "/github/workflow/event.json" (pull_request_payload (demo_pr "Alice")))
           (issue_comment_payload (demo_comment "bob" "@CLA-bot check" true))
           (pull_request_payload (demo_pr "Alice"))
           (demo_comment "bob" "@CLA-bot check" true)
           (demo_pr "Alice")).
  - reflexivity.
  - reflexivity.
  - vm_compute. discriminate.
  - reflexivity.
  - left. reflexivity.
  - reflexivity.
  - reflexivity.
  - repeat split.
  - reflexivity.
  - reflexivity.
Defined.

(** C6, the claim as stated fails: where the temporary file cannot be
    written, the handler reads whatever is at its path.  With no file there,
    the run ends with the error of the read and posts nothing; with the
    payload of an earlier run there, it reports on that pull request.  A
    pull-request event for the fetched pull request posts success for Alice
    on her head revision in both worlds. *)
Lemma issue_comment_write_failure :
  let w := demo_world (http_200 spec_csv) (Ok spec_signers_file)
                      (Ok (demo_pr "Alice")) false in
  let comment := issue_comment_payload (demo_comment "bob" "@cla-bot check" true) in
  let stale :=
    pull_request_payload
      {| User_Login := "mallory"; Head_SHA := "fffffff"; Base_Ref := "main"; Number := 3 |} in
  handleIssueComment demo_cfg w (start "/github/workflow/event.json" comment)
  = (Returns (Some (errors_New "open /tmp/pr_event.json: no such file or directory")),
     addCalls (start "/github/workflow/event.json" comment)
       [GetPull "your-org" "awesome-project" 7]) /\
  handleIssueComment demo_cfg w
    {| files := <[tmpFile := stale]> {[ "/github/workflow/event.json" := comment ]};
       calls := [] |}
  = (Returns None,
     {| files := <[tmpFile := stale]> {[ "/github/workflow/event.json" := comment ]};
        calls :=
          [GetPull "your-org" "awesome-project" 7;
           HttpGet "https://sheets.example/pub?output=csv";
           GetContents "your-org" "awesome-project" "cla-signers.txt" "main";
           CreateStatus "your-org" "awesome-project" "fffffff" "failure" CLA_not_signed
             "CLA check";
           CreateComment "your-org" "awesome-project" 3 "@mallory Please sign the CLA."] |}) /\
  handlePullRequest demo_cfg w
    (start "/github/workflow/event.json" (pull_request_payload (demo_pr "Alice")))
  = (Returns None,
     addCalls
       (start "/github/workflow/event.json" (pull_request_payload (demo_pr "Alice")))
       [HttpGet "https://sheets.example/pub?output=csv";
        GetContents "your-org" "awesome-project" "cla-signers.txt" "main";
        CreateStatus "your-org" "awesome-project" "0a1b2c3" "success" CLA_signed
          "CLA check"]).
Proof. cbv zeta. split; [|split]; vm_compute; reflexivity. Qed.

(** X1 at the fixture, whose sheet and signer file are ASCII: Bob, written
    BOB in the file and Bob in the sheet, is stored as bob. *)
Lemma signers_are_normalized_witness :
  "bob" <> "" /\ ToLower "bob" = "bob" /\ TrimSpace "bob" = "bob".
Proof.
  apply (signers_are_normalized demo_cfg "main"
           (demo_world (http_200 spec_csv) (Ok spec_signers_file)
                       (Err (errors_New "unused")) true)
           (start "/github/workflow/event.json" (pull_request_payload (demo_pr "alice")))
           (addCalls
              (start "/github/workflow/event.json" (pull_request_payload (demo_pr "alice")))
              [HttpGet "https://sheets.example/pub?output=csv";
               GetContents "your-org" "awesome-project" "cla-signers.txt" "main"])
           {[ "alice"; "bob" ]}).
  - split.
    + intros resp [= <-]. reflexivity.
    + intros file content [= <-] [= <-]. reflexivity.
  - vm_compute. reflexivity.
  - vm_compute. reflexivity.
Defined.

(** X2 at the fixture, whose sheet and signer file are ASCII: the handle
    of alice followed by a line feed. *)
Lemma unnormalized_author_is_never_found_witness :
  handlePullRequest demo_cfg
    (demo_world (http_200 spec_csv) (Ok spec_signers_file) (Err (errors_New "unused")) true)
    (start "/github/workflow/event.json"
       (pull_request_payload (demo_pr ("alice" ++ LF))))
  = (Returns None,
     addCalls
       (addCalls
          (start "/github/workflow/event.json"
             (pull_request_payload (demo_pr ("alice" ++ LF))))
          [HttpGet "https://sheets.example/pub?output=csv";
           GetContents "your-org" "awesome-project" "cla-signers.txt" "main"])
       [CreateStatus "your-org" "awesome-project" "0a1b2c3" "failure" CLA_not_signed
          "CLA check";
        CreateComment "your-org" "awesome-project" 7
          ("@" ++ ("alice" ++ LF) ++ " " ++ "Please sign the CLA.")]).
Proof.
  pose proof (unnormalized_author_is_never_found demo_cfg
                (demo_world (http_200 spec_csv) (Ok spec_signers_file)
                            (Err (errors_New "unused")) true)
                (start "/github/workflow/event.json"
                   (pull_request_payload (demo_pr ("alice" ++ LF))))
                (addCalls
                   (start "/github/workflow/event.json"
                      (pull_request_payload (demo_pr ("alice" ++ LF))))
                   [HttpGet "https://sheets.example/pub?output=csv";
                    GetContents "your-org" "awesome-project" "cla-signers.txt" "main"])
                (pull_request_payload (demo_pr ("alice" ++ LF)))
                {| GetPullRequest := demo_pr ("alice" ++ LF) |}
                {[ "alice"; "bob" ]}) as H.
  apply H.
  - reflexivity.
  - reflexivity.
  - split.
    + intros resp [= <-]. reflexivity.
    + intros file content [= <-] [= <-]. reflexivity.
  - reflexivity.
  - vm_compute. reflexivity.
  - right. vm_compute. discriminate.
Defined.

(** X4 at the fixture with one column, and at the sheet of the
    specification. *)
Lemma sheet_panics_iff_one_column_witness :
  let s := start "/github/workflow/event.json" (pull_request_payload (demo_pr "alice")) in
  let url := "https://sheets.example/pub?output=csv" in
  let run body :=
    loadSignersFromGoogleSheet url
      (demo_world (http_200 body) (Ok "") (Err (errors_New "unused")) true) s in
  ((length ["login"] = 1%nat /\ [["alice"]] <> [] /\
    run one_column_csv = (Panics (IndexOutOfRange 1 1), addCalls s [HttpGet url])) \/
   (((2 <= length ["login"])%nat \/ [["alice"]] = []) /\
    exists signers, run one_column_csv = (Returns (Ok signers), addCalls s [HttpGet url])))
  /\
  ((length ["header1"; "header2"] = 1%nat /\ [["Foo Bar"; "alice"]; ["Baz"; "Bob"]] <> [] /\
    run spec_csv = (Panics (IndexOutOfRange 1 1), addCalls s [HttpGet url])) \/
   (((2 <= length ["header1"; "header2"])%nat \/
     [["Foo Bar"; "alice"]; ["Baz"; "Bob"]] = []) /\
    exists signers, run spec_csv = (Returns (Ok signers), addCalls s [HttpGet url]))).
Proof.
  cbv zeta. split.
  - apply (sheet_panics_iff_one_column _
             (demo_world (http_200 one_column_csv) (Ok "") (Err (errors_New "unused")) true)
             _ {| StatusCode := 200; Status := "200 OK"; Body := one_column_csv |}).
    + discriminate.
    + reflexivity.
    + reflexivity.
    + reflexivity.
  - apply (sheet_panics_iff_one_column _
             (demo_world (http_200 spec_csv) (Ok "") (Err (errors_New "unused")) true)
             _ {| StatusCode := 200; Status := "200 OK"; Body := spec_csv |}).
    + discriminate.
    + reflexivity.
    + reflexivity.
    + reflexivity.
Defined.

(** X5 at the fixture with a signer path that is a directory: the run
    panics on the nil file, after the GET of the sheet and the fetch. *)
Lemma handlePullRequest_panics_witness :
  let c := demo_cfg in
  let w := directory_world (http_200 spec_csv) in
  let s := start "/github/workflow/event.json" (pull_request_payload (demo_pr "alice")) in
  let s' := addCalls s [HttpGet "https://sheets.example/pub?output=csv";
                        GetContents "your-org" "awesome-project" "cla-signers.txt" "main"] in
  let p := NilDereference in
  handlePullRequest c w s = (Panics p, s') /\
  exists d ev,
    files s !! EventPath c = Some d /\ as_PullRequestEvent d = Ok ev /\
    let ref := Base_Ref (GetPullRequest ev) in
    ((GoogleSheetUrl c <> "" /\ http_Do w (GoogleSheetUrl c) = None /\
      p = NilDereference /\ s' = s) \/
     (GoogleSheetUrl c <> "" /\
      (exists resp rows,
          http_Do w (GoogleSheetUrl c) = Some (Ok resp) /\ StatusCode resp = 200%Z /\
          Csv.ReadAll (Body resp) = Ok rows /\ sheetLoop 0 rows ∅ = Panics p) /\
      p = IndexOutOfRange 1 1 /\ s' = addCalls s [HttpGet (GoogleSheetUrl c)]) \/
     (SignersPath c <> "" /\
      Repositories_GetContents w (RepoOwner c) (RepoName c) (SignersPath c) ref
        = Ok None /\
      p = NilDereference /\
      s' = addCalls s
             ((if decide (GoogleSheetUrl c = "") then []
               else [HttpGet (GoogleSheetUrl c)])
              ++ [GetContents (RepoOwner c) (RepoName c) (SignersPath c) ref]))) /\
    posted s' = posted s.
Proof.
  cbv zeta. split; [vm_compute; reflexivity|].
  apply (handlePullRequest_panics demo_cfg (directory_world (http_200 spec_csv))).
  vm_compute. reflexivity.
Defined.

(** X6 at a state without files, and at an event file that holds no JSON. *)
Lemma undecoded_event_makes_no_call_witness :
  let w := demo_world (http_200 spec_csv) (Ok spec_signers_file)
                      (Ok (demo_pr "alice")) true in
  let none := {| files := ∅; calls := [] |} in
  let garbage :=
    {| as_PullRequestEvent := Err (errors_New "invalid character");
       as_IssueCommentEvent := Err (errors_New "invalid character") |} in
  (handlePullRequest demo_cfg w none
   = (Returns (Some (errors_New
        "open /github/workflow/event.json: no such file or directory")), none) /\
   handleIssueComment demo_cfg w none
   = (Returns (Some (errors_New
        "open /github/workflow/event.json: no such file or directory")), none)) /\
  handlePullRequest demo_cfg w (start "/github/workflow/event.json" garbage)
  = (Returns (Some (errors_New "invalid character")),
     start "/github/workflow/event.json" garbage).
Proof.
  cbv zeta. split.
  - apply (proj1 (undecoded_event_makes_no_call demo_cfg _ {| files := ∅; calls := [] |})).
    reflexivity.
  - refine (proj1 (proj2 (undecoded_event_makes_no_call demo_cfg _
                            (start "/github/workflow/event.json" _)) _ _ _) _);
      reflexivity.
Defined.

(** X7 at the fixture: the platform answers that there is no such pull
    request. *)
Lemma unfetched_pull_request_aborts_witness :
  let s := start "/github/workflow/event.json"
             (issue_comment_payload (demo_comment "bob" "cla-bot check please" true)) in
  handleIssueComment demo_cfg
    (demo_world (http_200 spec_csv) (Ok spec_signers_file)
                (Err (errors_New "404 Not Found")) true) s
  = (Returns (Some (errors_New "404 Not Found")),
     {| files := files s;
        calls := calls s ++ [GetPull (RepoOwner demo_cfg) (RepoName demo_cfg)
                               (Issue_Number (demo_comment "bob" "cla-bot check please" true))] |}).
Proof.
  cbv zeta.
  apply (unfetched_pull_request_aborts demo_cfg _ _
           (issue_comment_payload (demo_comment "bob" "cla-bot check please" true))
           (demo_comment "bob" "cla-bot check please" true)).
  - reflexivity.
  - reflexivity.
  - vm_compute. discriminate.
  - reflexivity.
  - right. reflexivity.
  - reflexivity.
Defined.

(** X8 at the fixture: [main] on a pull request of Mallory. *)
Lemma every_run_posts_one_verdict_witness :
  let s := start "/github/workflow/event.json" (pull_request_payload (demo_pr "Mallory")) in
  let s' :=
    addCalls s
      [GetContents "your-org" "awesome-project" "cla-signers.txt" "main";
       CreateStatus "your-org" "awesome-project" "0a1b2c3" "failure" CLA_not_signed
         "CLA check";
       CreateComment "your-org" "awesome-project" 7
         "@mallory Please sign the CLA and then comment `@cla-bot check` on this PR."] in
  exists posts,
    posted s' = posted s ++ posts /\
    (posts = [] \/
     Returns None = Returns (@None error) /\
     ((exists owner name sha,
          posts = [CreateStatus owner name sha "success" CLA_signed "CLA check"]) \/
      (exists owner name sha number body,
          posts = [CreateStatus owner name sha "failure" CLA_not_signed "CLA check";
                   CreateComment owner name number body]))).
Proof.
  cbv zeta.
  apply (every_run_posts_one_verdict (demo_env "pull_request") demo_cfg
           (demo_world http_500 (Ok spec_signers_file) (Err (errors_New "unused")) true)).
  left. vm_compute. reflexivity.
Defined.

(** X9 at the fixture: a push event, and an environment without the
    repository. *)
Lemma main_dispatch_witness :
  let w := demo_world (http_200 spec_csv) (Ok spec_signers_file)
                      (Ok (demo_pr "alice")) true in
  let s := start "/github/workflow/event.json" (pull_request_payload (demo_pr "alice")) in
  main no_env w s = (Panics (IndexOutOfRange 1 1), s) /\
  main (demo_env "push") w s = (Returns None, s).
Proof.
  cbv zeta. split.
  - apply (proj1 (main_dispatch no_env _ _)). reflexivity.
  - destruct (fromEnv (demo_env "push")) as [c|p] eqn:Hc; [|discriminate Hc].
    apply (proj2 (proj2 (proj2 (main_dispatch (demo_env "push") _ _) c Hc)));
      discriminate.
Defined.

(** X10 at the fixture: two names with white space and capitals. *)
Lemma fromEnv_ignore_list_witness :
  exists c,
    fromEnv (env_of [("GITHUB_REPOSITORY", "your-org/awesome-project");
                     ("BOT_IGNORE_AUTHORS", "Dependabot[bot], Renovate ")])
    = Returns c /\
    "renovate" ∈ IgnoreAuthors c /\ "dependabot[bot]" ∈ IgnoreAuthors c /\
    CommentMsg c <> "".
Proof.
  destruct (fromEnv (env_of [("GITHUB_REPOSITORY", "your-org/awesome-project");
                             ("BOT_IGNORE_AUTHORS", "Dependabot[bot], Renovate ")]))
    as [c|p] eqn:Hc; [|discriminate Hc].
  exists c. split; [reflexivity|].
  destruct (fromEnv_ignore_list _ c Hc) as (Hmem & _ & _ & Hmsg & _).
  split_and!; [| |exact Hmsg].
  - apply Hmem. exists " Renovate ". split; [|reflexivity]. right. left. reflexivity.
  - apply Hmem. exists "Dependabot[bot]". split; [|reflexivity]. left. reflexivity.
Defined.

(** X11 at the fixture: the variable is not set and the Actions bot
    comments. *)
Lemma ignored_author_of_the_environment_witness :
  exists c,
    fromEnv (demo_env "issue_comment") = Returns c /\
    handleIssueComment c
      (demo_world (http_200 spec_csv) (Ok spec_signers_file) (Ok (demo_pr "alice")) true)
      (start "/github/workflow/event.json"
         (issue_comment_payload (demo_comment "GitHub-Actions[bot]" "@cla-bot check" true)))
    = (Returns None,
       start "/github/workflow/event.json"
         (issue_comment_payload (demo_comment "GitHub-Actions[bot]" "@cla-bot check" true))).
Proof.
  destruct (fromEnv (demo_env "issue_comment")) as [c|p] eqn:Hc; [|discriminate Hc].
  exists c. split; [reflexivity|].
  assert (EventPath c = "/github/workflow/event.json") as Hpath.
  { destruct (fromEnv_fields _ _ Hc) as (_ & _ & -> & _). reflexivity. }
  apply (ignored_author_of_the_environment (demo_env "issue_comment") c _ _
           (issue_comment_payload (demo_comment "GitHub-Actions[bot]" "@cla-bot check" true))
           (demo_comment "GitHub-Actions[bot]" "@cla-bot check" true)
           "github-actions[bot]" Hc).
  - left. reflexivity.
  - rewrite Hpath. reflexivity.
  - reflexivity.
  - reflexivity.
Defined.

(** X12 at a value with two slashes. *)
Lemma fromEnv_owner_and_name_witness :
  exists c,
    fromEnv (env_repo "your-org/awesome-project/extra") = Returns c /\
    RepoOwner c = "your-org" /\ RepoName c = "awesome-project" /\
    Contains (RepoOwner c) "/" = false /\ Contains (RepoName c) "/" = false.
Proof.
  destruct (fromEnv (env_repo "your-org/awesome-project/extra")) as [c|p] eqn:Hc;
    [|discriminate Hc].
  exists c. split; [reflexivity|].
  destruct (fromEnv_owner_and_name _ c Hc) as (Howner & Hname & _).
  injection Hc as <-. by split_and!.
Defined.

(** X13 at the fixture. *)
Lemma unwritten_temporary_file_aborts_witness :
  let s := start "/github/workflow/event.json"
             (issue_comment_payload (demo_comment "bob" "@cla-bot check" true)) in
  handleIssueComment demo_cfg
    (demo_world (http_200 spec_csv) (Ok spec_signers_file) (Ok (demo_pr "Alice")) false) s
  = (Returns (Some (errors_New "open /tmp/pr_event.json: no such file or directory")),
     {| files := files s;
        calls := calls s ++ [GetPull (RepoOwner demo_cfg) (RepoName demo_cfg)
                               (Issue_Number (demo_comment "bob" "@cla-bot check" true))] |}).
Proof.
  cbv zeta.
  apply (unwritten_temporary_file_aborts demo_cfg _ _
           (issue_comment_payload (demo_comment "bob" "@cla-bot check" true))
           (demo_comment "bob" "@cla-bot check" true)
           (demo_pr "Alice")).
  - reflexivity.
  - reflexivity.
  - vm_compute. discriminate.
  - reflexivity.
  - left. reflexivity.
  - reflexivity.
  - reflexivity.
  - reflexivity.
Defined.

(** X14 at the fixture without sources. *)
Lemma without_sources_everyone_fails_witness :
  let s := start "/github/workflow/event.json" (pull_request_payload (demo_pr "alice")) in
  handlePullRequest (with_sources "" "" demo_cfg)
    (demo_world (http_200 spec_csv) (Ok spec_signers_file) (Err (errors_New "unused")) true) s
  = (Returns None,
     addCalls s
       [CreateStatus "your-org" "awesome-project" "0a1b2c3" "failure" CLA_not_signed
          "CLA check";
        CreateComment "your-org" "awesome-project" 7
          ("@" ++ ToLower "alice" ++ " " ++ "Please sign the CLA.")]).
Proof.
  cbv zeta.
  apply (without_sources_everyone_fails (with_sources "" "" demo_cfg) _ _
           (pull_request_payload (demo_pr "alice"))
           {| GetPullRequest := demo_pr "alice" |});
    reflexivity.
Defined.

(** X15 at the fixture: a sheet that answers 403, and a sheet with an
    open quote. *)
Lemma sheet_failures_witness :
  let s := start "/github/workflow/event.json" (pull_request_payload (demo_pr "alice")) in
  handlePullRequest demo_cfg
    (demo_world (Ok {| StatusCode := 403; Status := "403 Forbidden"; Body := spec_csv |})
                (Ok spec_signers_file) (Err (errors_New "unused")) true) s
  = (Returns (Some (Errorf_w "sheet: " (errors_New "google sheets returned 403 Forbidden"))),
     addCalls s [HttpGet (GoogleSheetUrl demo_cfg)]) /\
  handlePullRequest demo_cfg
    (demo_world (http_200 (String Csv.quote "alice")) (Ok spec_signers_file)
                (Err (errors_New "unused")) true) s
  = (Returns (Some (Errorf_w "sheet: " (csv_ParseError ErrQuote))),
     addCalls s [HttpGet (GoogleSheetUrl demo_cfg)]).
Proof.
  cbv zeta. split.
  - refine (proj1 (proj2 (sheet_failures demo_cfg
                            (demo_world (Ok {| StatusCode := 403; Status := "403 Forbidden";
                                               Body := spec_csv |})
                                        (Ok spec_signers_file) (Err (errors_New "unused")) true)
                            _ (pull_request_payload (demo_pr "alice"))
                            {| GetPullRequest := demo_pr "alice" |} _ _ _))
                  {| StatusCode := 403; Status := "403 Forbidden"; Body := spec_csv |} _ _);
      first [reflexivity | discriminate].
  - refine (proj2 (proj2 (sheet_failures demo_cfg
                            (demo_world (http_200 (String Csv.quote "alice"))
                                        (Ok spec_signers_file) (Err (errors_New "unused")) true)
                            _ (pull_request_payload (demo_pr "alice"))
                            {| GetPullRequest := demo_pr "alice" |} _ _ _))
                  {| StatusCode := 200; Status := "200 OK";
                     Body := String Csv.quote "alice" |} _ _ _ _);
      first [reflexivity | discriminate].
Defined.

(** X16 at the fixture: the content of the file cannot be decoded. *)
Lemma signer_file_failures_witness :
  let s := start "/github/workflow/event.json" (pull_request_payload (demo_pr "alice")) in
  handlePullRequest (with_sources "" "cla-signers.txt" demo_cfg)
    (demo_world http_500 (Err (errors_New "unsupported content encoding"))
                (Err (errors_New "unused")) true) s
  = (Returns (Some (Errorf_w "repo file: " (errors_New "unsupported content encoding"))),
     addCalls s [GetContents "your-org" "awesome-project" "cla-signers.txt" "main"]).
Proof.
  cbv zeta.
  refine (proj2 (signer_file_failures (with_sources "" "cla-signers.txt" demo_cfg)
                   (demo_world http_500 (Err (errors_New "unsupported content encoding"))
                               (Err (errors_New "unused")) true)
                   _ (pull_request_payload (demo_pr "alice"))
                   {| GetPullRequest := demo_pr "alice" |} _ _ _ _)
            {| GetContent := Err (errors_New "unsupported content encoding") |}
            (errors_New "unsupported content encoding") _ _);
    first [reflexivity | discriminate].
Defined.
